(** * GloriaFood platform: order ingestion and menu synchronisation

    A shallow embedding of [services/orders.ts] (OrdersService),
    [services/menu.ts] (MenuService), [services/gloriafood-client.ts]
    ([validateWebhookRequest]), the push route of [index.ts] and the
    tables of [schema/migrations.sql].

    Conventions of the embedding.
    - A JavaScript [number] is a [Z]: the code only copies amounts and
      identifiers and replaces falsy ones by a default, it never computes
      with them.  An optional field is an [option]; [null] and
      [undefined] are both [None] and are bound as SQL NULL.
    - A D1 table is a list of rows in rowid order together with its
      AUTOINCREMENT counter.  [first()] returns the first row of the
      result set.
    - The UNIQUE constraints of the schema are enforced.  The FOREIGN KEY
      clauses are enforced when the connection flag [foreign_keys] is on
      (insert checks and ON DELETE CASCADE).
    - Every D1 statement and every KV operation is one call to a backend
      that may fail: the world carries the list of the outcomes of the
      next calls ([true] = this call fails).  An empty list is a healthy
      backend.
    - An [async] method is a function [World -> World * Outcome A]: the
      world after the call and either the returned value or the thrown
      error.
    - [JSON.stringify] followed by [JSON.parse] is the identity on the
      documents handled here (they come from parsed JSON or from rows),
      so the KV cache and the TEXT columns holding JSON keep the document
      itself. *)

From stdpp Require Import base option list numbers strings gmap.

Local Open Scope Z_scope.
Local Open Scope string_scope.

(** ** JavaScript truthiness *)

Module Js.

(** [x || d] for an optional number: [undefined], [null] and [0] are falsy. *)
Definition num_or (x : option Z) (d : Z) : Z :=
  match x with
  | Some v => if decide (v = 0) then d else v
  | None => d
  end.

(** [x || null] for an optional number. *)
Definition num_or_null (x : option Z) : option Z :=
  match x with
  | Some v => if decide (v = 0) then None else Some v
  | None => None
  end.

(** [x || y] for two optional numbers. *)
Definition num_or_else (x y : option Z) : option Z :=
  match num_or_null x with
  | Some v => Some v
  | None => y
  end.

(** [!x] for an optional number. *)
Definition num_falsy (x : option Z) : bool :=
  match num_or_null x with
  | Some _ => false
  | None => true
  end.

(** [x || null] for an optional string: the empty string is falsy. *)
Definition str_or_null (x : option string) : option string :=
  match x with
  | Some s => if decide (s = "") then None else Some s
  | None => None
  end.

(** [x || d] for an optional string. *)
Definition str_or (x : option string) (d : string) : string :=
  match str_or_null x with
  | Some s => s
  | None => d
  end.

(** [x || y] for two optional strings. *)
Definition str_or_else (x y : option string) : option string :=
  match str_or_null x with
  | Some s => Some s
  | None => y
  end.

(** [!x] for an optional string. *)
Definition str_falsy (x : option string) : bool :=
  match str_or_null x with
  | Some _ => false
  | None => true
  end.

(** [x ? 1 : 0] for a boolean and for an optional boolean. *)
Definition flag (b : bool) : Z := if b then 1 else 0.
Definition opt_flag (b : option bool) : Z :=
  match b with
  | Some true => 1
  | _ => 0
  end.

(** [x || null] for an enumerated string: every member is non-empty. *)
Definition enum_or_null {A} (x : option A) : option A := x.

End Js.

(** ** Payloads (types/index.ts) *)

Inductive OrderType := pickup | delivery.
Inductive PaymentMethod := CASH | ONLINE | CARD | CARD_PHONE.
Inductive TaxType := NET | GROSS.
Inductive OrderItemType :=
| item_ | delivery_fee_ | tip_ | promo_cart | promo_item | promo_cart_item
| service_fee_subtotal | service_fee_total | cash_discount.
Inductive OrderTaxType :=
| tax_item | tax_delivery_fee | tax_tip | tax_fees_discounts_subtotal
| tax_service_fee_total.
Inductive OptionType := size_ | option_.
Inductive MenuItemTag :=
| HOT | VEGETARIAN | VEGAN | GLUTEN_FREE | HALAL | NUT_FREE | DAIRY_FREE | RAW.

#[global] Instance OrderType_eq_dec : EqDecision OrderType.
Proof. solve_decision. Defined.
#[global] Instance OrderItemType_eq_dec : EqDecision OrderItemType.
Proof. solve_decision. Defined.

Module PaymentInfo.
Record t := {
  payment_status : string;
  payment_processor : option string;
  payment_processor_name : option string;
  payment_method : option string;
  card_type : option string }.
End PaymentInfo.

Module OrderTax.
Record t := { type : OrderTaxType; value : Z; rate : Z }.
End OrderTax.

Module AddressParts.
Record t := {
  street : option string;
  bloc : option string;
  floor : option string;
  apartment : option string;
  intercom : option string;
  more_address : option string;
  zipcode : option string;
  city : option string;
  full_address : option string }.
End AddressParts.

Module OrderItemOption.
Record t := {
  id : Z;
  name : string;
  price : Z;
  group_name : option string;
  quantity : Z;
  type : OptionType;
  type_id : option Z;
  kitchen_internal_name : option string }.
End OrderItemOption.

Module OrderItem.
Record t := {
  id : Z;
  name : string;
  total_item_price : Z;
  price : Z;
  quantity : Z;
  instructions : option string;
  type : OrderItemType;
  type_id : option Z;
  tax_rate : option Z;
  tax_value : option Z;
  tax_type : option TaxType;
  parent_id : option Z;
  item_discount : option Z;
  cart_discount : option Z;
  cart_discount_rate : option Z;
  kitchen_internal_name : option string;
  coupon : option string;
  options : option (list OrderItemOption.t) }.
End OrderItem.

Module BillingDetails.
Record t := {
  type : option string;
  company_name : option string;
  cui : option string;
  reg_com : option string;
  person_name : option string;
  person_type : option string;
  document_type : option string;
  document_number : option string;
  address : option string;
  city : option string;
  region : option string;
  sector : option string;
  country_code : option string }.
End BillingDetails.

Module GloriaFoodOrder.
Record t := {
  id : Z;
  status : string;
  type : OrderType;
  source : option string;
  restaurant_key : string;
  restaurant_id : Z;
  restaurant_name : string;
  restaurant_timezone : option string;
  pos_system_id : option Z;
  currency : string;
  total_price : Z;
  sub_total_price : Z;
  tax_value : Z;
  tax_type : TaxType;
  tax_name : option string;
  tax_list : option (list OrderTax.t);
  coupons : option (list string);
  instructions : option string;
  fulfill_at : string;
  accepted_at : string;
  for_later : option bool;
  pin_skipped : option bool;
  pickup_payment : option PaymentMethod;
  delivery_payment : option PaymentMethod;
  payment : option PaymentInfo.t;
  items : list OrderItem.t;
  client_id : option Z;
  user_id : option Z;
  client_first_name : option string;
  client_last_name : option string;
  client_email : option string;
  client_phone : option string;
  client_address : option string;
  client_address_parts : option AddressParts.t;
  client_order_count : option Z;
  client_marketing_consent : option bool;
  latitude : option string;
  longitude : option string;
  delivery_zone_name : option string;
  outside_delivery_area : option bool;
  billing_details : option BillingDetails.t }.
End GloriaFoodOrder.

Module GloriaFoodOrderResponse.
Record t := { count : Z; orders : list GloriaFoodOrder.t }.
End GloriaFoodOrderResponse.

Module MenuOption.
Record t := {
  id : Z;
  name : string;
  price : Z;
  default : bool;
  (** [extras?.menu_option_kitchen_internal_name] *)
  extras_kitchen_internal_name : option string }.
End MenuOption.

Module MenuOptionGroup.
Record t := {
  id : Z;
  name : string;
  required : bool;
  allow_quantity : bool;
  force_min : Z;
  force_max : Z;
  options : list MenuOption.t }.
End MenuOptionGroup.

Module MenuItemSize.
Record t := {
  id : Z;
  name : string;
  price : Z;
  default : bool;
  groups : option (list MenuOptionGroup.t) }.
End MenuItemSize.

Module Allergen.
Record t := { id : Z; name : string }.
End Allergen.

Module NutritionalValue.
Record t := { id : Z; value : string }.
End NutritionalValue.

Module MenuItemExtras.
Record t := {
  menu_item_order_types : option (list OrderType);
  menu_item_kitchen_internal_name : option string;
  menu_item_allergens_ids : option (list Z);
  menu_item_allergens_values : option (list Allergen.t);
  menu_item_nutritional_values : option (list NutritionalValue.t);
  menu_item_nutritional_values_size : option string }.

(** [item.extras || {}] *)
Definition empty : t :=
  {| menu_item_order_types := None;
     menu_item_kitchen_internal_name := None;
     menu_item_allergens_ids := None;
     menu_item_allergens_values := None;
     menu_item_nutritional_values := None;
     menu_item_nutritional_values_size := None |}.
End MenuItemExtras.

Module MenuItem.
Record t := {
  id : Z;
  name : string;
  description : option string;
  price : Z;
  active : bool;
  tags : option (list MenuItemTag);
  sizes : option (list MenuItemSize.t);
  groups : option (list MenuOptionGroup.t);
  extras : option MenuItemExtras.t }.
End MenuItem.

Module MenuCategory.
Record t := {
  id : Z;
  name : string;
  description : option string;
  active : bool;
  items : list MenuItem.t;
  groups : option (list MenuOptionGroup.t) }.
End MenuCategory.

Module GloriaFoodMenuResponse.
Record t := {
  id : Z;
  restaurant_id : Z;
  active : bool;
  currency : string;
  categories : list MenuCategory.t }.
End GloriaFoodMenuResponse.

(** ** Rows (schema/migrations.sql)

    One record per table, one field per column.  The timestamp columns
    hold the value of the store clock at the time of the write. *)

Module Restaurants.
Record row := {
  id : Z;
  gloriafood_id : Z;
  restaurant_key : string;
  name : string;
  timezone : string;
  currency : string;
  active : Z;
  created_at : Z;
  updated_at : Z }.
End Restaurants.

Module Clients.
Record row := {
  id : Z;
  gloriafood_id : Z;
  first_name : option string;
  last_name : option string;
  email : option string;
  phone : option string;
  order_count : Z;
  marketing_consent : Z;
  created_at : Z;
  updated_at : Z }.
End Clients.

Module ClientAddresses.
Record row := {
  id : Z;
  client_id : Z;
  full_address : option string;
  street : option string;
  city : option string;
  zipcode : option string;
  bloc : option string;
  floor : option string;
  apartment : option string;
  intercom : option string;
  latitude : option string;
  longitude : option string;
  delivery_zone : option string;
  created_at : Z }.
End ClientAddresses.

Module Orders.
Record row := {
  id : Z;
  gloriafood_id : Z;
  pos_system_id : Z;
  restaurant_id : Z;
  client_id : option Z;
  status : string;
  type : OrderType;
  source : option string;
  currency : string;
  total_price : Z;
  sub_total_price : Z;
  tax_value : Z;
  tax_type : TaxType;
  tax_name : option string;
  payment_method : option PaymentMethod;
  payment_status : string;
  instructions : option string;
  fulfill_at : string;
  accepted_at : string;
  for_later : Z;
  pin_skipped : Z;
  delivery_fee : Z;
  delivery_address : option string;
  delivery_latitude : option string;
  delivery_longitude : option string;
  delivery_zone : option string;
  outside_delivery_area : Z;
  tip_amount : Z;
  raw_payload : GloriaFoodOrder.t;
  created_at : Z;
  updated_at : Z }.
End Orders.

Module OrderItems.
Record row := {
  id : Z;
  order_id : Z;
  gloriafood_id : Z;
  parent_id : option Z;
  name : string;
  type : OrderItemType;
  type_id : option Z;
  quantity : Z;
  price : Z;
  total_price : Z;
  tax_rate : Z;
  tax_value : Z;
  tax_type : option TaxType;
  item_discount : Z;
  cart_discount : Z;
  cart_discount_rate : Z;
  instructions : option string;
  kitchen_internal_name : option string;
  coupon : option string;
  created_at : Z }.
End OrderItems.

Module OrderItemOptions.
Record row := {
  id : Z;
  order_item_id : Z;
  gloriafood_id : Z;
  name : string;
  group_name : option string;
  type : OptionType;
  type_id : option Z;
  quantity : Z;
  price : Z;
  kitchen_internal_name : option string }.
End OrderItemOptions.

Module OrderCoupons.
Record row := { id : Z; order_id : Z; coupon_code : string; created_at : Z }.
End OrderCoupons.

Module OrderTaxes.
Record row := { id : Z; order_id : Z; type : OrderTaxType; rate : Z; value : Z }.
End OrderTaxes.

Module BillingDetailsTable.
Record row := {
  id : Z;
  order_id : Z;
  type : option string;
  company_name : option string;
  cui : option string;
  reg_com : option string;
  person_name : option string;
  person_type : option string;
  document_type : option string;
  document_number : option string;
  address : option string;
  city : option string;
  region : option string;
  sector : option string;
  country_code : option string }.
End BillingDetailsTable.

Module Menus.
Record row := {
  id : Z;
  gloriafood_id : Z;
  restaurant_id : Z;
  currency : string;
  active : Z;
  synced_at : Z }.
End Menus.

Module MenuCategories.
Record row := {
  id : Z;
  menu_id : Z;
  gloriafood_id : Z;
  name : string;
  description : option string;
  active : Z;
  sort_order : Z;
  created_at : Z }.
End MenuCategories.

Module MenuItems.
Record row := {
  id : Z;
  category_id : Z;
  gloriafood_id : Z;
  name : string;
  description : option string;
  price : Z;
  active : Z;
  sort_order : Z;
  kitchen_internal_name : option string;
  order_types : option (list OrderType);
  tags : option (list MenuItemTag);
  allergens : option (list Allergen.t);
  nutritional_values : option (list NutritionalValue.t);
  image_url : option string;
  created_at : Z;
  updated_at : Z }.
End MenuItems.

Module MenuItemSizes.
Record row := {
  id : Z;
  item_id : Z;
  gloriafood_id : Z;
  name : string;
  price : Z;
  is_default : Z;
  sort_order : Z }.
End MenuItemSizes.

Module MenuOptionGroups.
Record row := {
  id : Z;
  gloriafood_id : Z;
  name : string;
  required : Z;
  allow_quantity : Z;
  force_min : Z;
  force_max : Z;
  created_at : Z }.
End MenuOptionGroups.

Module MenuItemOptionGroups.
Record row := {
  id : Z;
  item_id : option Z;
  size_id : option Z;
  option_group_id : Z }.
End MenuItemOptionGroups.

Module MenuOptions.
Record row := {
  id : Z;
  option_group_id : Z;
  gloriafood_id : Z;
  name : string;
  price : Z;
  is_default : Z;
  kitchen_internal_name : option string;
  sort_order : Z }.
End MenuOptions.

(** The counters returned by [syncMenu]. *)
Module Stats.
Record t := {
  categories : Z;
  items : Z;
  sizes : Z;
  optionGroups : Z;
  options : Z }.

Definition zero : t :=
  {| categories := 0; items := 0; sizes := 0; optionGroups := 0; options := 0 |}.
Definition incr_categories (s : t) : t :=
  {| categories := categories s + 1; items := items s; sizes := sizes s;
     optionGroups := optionGroups s; options := options s |}.
Definition incr_items (s : t) : t :=
  {| categories := categories s; items := items s + 1; sizes := sizes s;
     optionGroups := optionGroups s; options := options s |}.
Definition incr_sizes (s : t) : t :=
  {| categories := categories s; items := items s; sizes := sizes s + 1;
     optionGroups := optionGroups s; options := options s |}.
Definition incr_optionGroups (s : t) : t :=
  {| categories := categories s; items := items s; sizes := sizes s;
     optionGroups := optionGroups s + 1; options := options s |}.
Definition incr_options (s : t) : t :=
  {| categories := categories s; items := items s; sizes := sizes s;
     optionGroups := optionGroups s; options := options s + 1 |}.
End Stats.

(** One entry of the result list of the push and pull routes. *)
Module OrderResult.
Record t := { gloriafood_id : Z; internal_id : Z; is_new : bool }.
End OrderResult.

(** The JSON documents written to [webhook_logs.payload]. *)
Inductive LogPayload :=
| LogText (s : string)
| LogSyncStats (stats : Stats.t)
| LogSyncError (error : string)
| LogOrders (count : Z) (orders : list OrderResult.t).

Module WebhookLogs.
Record row := {
  id : Z;
  event_type : string;
  payload : LogPayload;
  status : string;
  error_message : option string;
  created_at : Z }.
End WebhookLogs.

(** ** The D1 store *)

(** A table: its rows in rowid order and the next AUTOINCREMENT value. *)
Record Table (R : Type) := { rows : list R; next_id : Z }.
Arguments rows {R} _.
Arguments next_id {R} _.

Definition empty_table {R} : Table R := {| rows := []; next_id := 1 |}.

(** [INSERT]: the new row gets the counter as its id and goes last. *)
Definition table_insert {R} (mk : Z → R) (t : Table R) : Table R :=
  {| rows := rows t ++ [mk (next_id t)]; next_id := next_id t + 1 |}.

(** [UPDATE ... WHERE]: rows keep their position. *)
Definition table_update {R} (P : R → Prop) `{∀ r, Decision (P r)}
    (f : R → R) (t : Table R) : Table R :=
  {| rows := (λ r, if decide (P r) then f r else r) <$> rows t;
     next_id := next_id t |}.

(** [DELETE ... WHERE]. *)
Definition table_delete {R} (P : R → Prop) `{∀ r, Decision (P r)}
    (t : Table R) : Table R :=
  {| rows := filter (λ r, ¬ P r) (rows t); next_id := next_id t |}.

(** [SELECT ... WHERE] and [first()]. *)
Definition table_select {R} (P : R → Prop) `{∀ r, Decision (P r)}
    (t : Table R) : list R :=
  filter P (rows t).
Definition table_first {R} (P : R → Prop) `{∀ r, Decision (P r)}
    (t : Table R) : option R :=
  head (table_select P t).

Record Store := {
  restaurants : Table Restaurants.row;
  clients : Table Clients.row;
  client_addresses : Table ClientAddresses.row;
  orders : Table Orders.row;
  order_items : Table OrderItems.row;
  order_item_options : Table OrderItemOptions.row;
  order_coupons : Table OrderCoupons.row;
  order_taxes : Table OrderTaxes.row;
  billing_details : Table BillingDetailsTable.row;
  menus : Table Menus.row;
  menu_categories : Table MenuCategories.row;
  menu_items : Table MenuItems.row;
  menu_item_sizes : Table MenuItemSizes.row;
  menu_option_groups : Table MenuOptionGroups.row;
  menu_item_option_groups : Table MenuItemOptionGroups.row;
  menu_options : Table MenuOptions.row;
  webhook_logs : Table WebhookLogs.row;
  (** [PRAGMA foreign_keys] *)
  foreign_keys : bool }.

Definition empty_store (fk : bool) : Store :=
  {| restaurants := empty_table;
     clients := empty_table;
     client_addresses := empty_table;
     orders := empty_table;
     order_items := empty_table;
     order_item_options := empty_table;
     order_coupons := empty_table;
     order_taxes := empty_table;
     billing_details := empty_table;
     menus := empty_table;
     menu_categories := empty_table;
     menu_items := empty_table;
     menu_item_sizes := empty_table;
     menu_option_groups := empty_table;
     menu_item_option_groups := empty_table;
     menu_options := empty_table;
     webhook_logs := empty_table;
     foreign_keys := fk |}.

Definition with_restaurants (t : Table Restaurants.row) (s : Store) : Store :=
  {| restaurants := t; clients := clients s;
     client_addresses := client_addresses s; orders := orders s;
     order_items := order_items s;
     order_item_options := order_item_options s;
     order_coupons := order_coupons s; order_taxes := order_taxes s;
     billing_details := billing_details s; menus := menus s;
     menu_categories := menu_categories s; menu_items := menu_items s;
     menu_item_sizes := menu_item_sizes s;
     menu_option_groups := menu_option_groups s;
     menu_item_option_groups := menu_item_option_groups s;
     menu_options := menu_options s; webhook_logs := webhook_logs s;
     foreign_keys := foreign_keys s |}.
Definition with_clients (t : Table Clients.row) (s : Store) : Store :=
  {| restaurants := restaurants s; clients := t;
     client_addresses := client_addresses s; orders := orders s;
     order_items := order_items s;
     order_item_options := order_item_options s;
     order_coupons := order_coupons s; order_taxes := order_taxes s;
     billing_details := billing_details s; menus := menus s;
     menu_categories := menu_categories s; menu_items := menu_items s;
     menu_item_sizes := menu_item_sizes s;
     menu_option_groups := menu_option_groups s;
     menu_item_option_groups := menu_item_option_groups s;
     menu_options := menu_options s; webhook_logs := webhook_logs s;
     foreign_keys := foreign_keys s |}.
Definition with_client_addresses (t : Table ClientAddresses.row) (s : Store) : Store :=
  {| restaurants := restaurants s; clients := clients s;
     client_addresses := t; orders := orders s; order_items := order_items s;
     order_item_options := order_item_options s;
     order_coupons := order_coupons s; order_taxes := order_taxes s;
     billing_details := billing_details s; menus := menus s;
     menu_categories := menu_categories s; menu_items := menu_items s;
     menu_item_sizes := menu_item_sizes s;
     menu_option_groups := menu_option_groups s;
     menu_item_option_groups := menu_item_option_groups s;
     menu_options := menu_options s; webhook_logs := webhook_logs s;
     foreign_keys := foreign_keys s |}.
Definition with_orders (t : Table Orders.row) (s : Store) : Store :=
  {| restaurants := restaurants s; clients := clients s;
     client_addresses := client_addresses s; orders := t;
     order_items := order_items s;
     order_item_options := order_item_options s;
     order_coupons := order_coupons s; order_taxes := order_taxes s;
     billing_details := billing_details s; menus := menus s;
     menu_categories := menu_categories s; menu_items := menu_items s;
     menu_item_sizes := menu_item_sizes s;
     menu_option_groups := menu_option_groups s;
     menu_item_option_groups := menu_item_option_groups s;
     menu_options := menu_options s; webhook_logs := webhook_logs s;
     foreign_keys := foreign_keys s |}.
Definition with_order_items (t : Table OrderItems.row) (s : Store) : Store :=
  {| restaurants := restaurants s; clients := clients s;
     client_addresses := client_addresses s; orders := orders s;
     order_items := t; order_item_options := order_item_options s;
     order_coupons := order_coupons s; order_taxes := order_taxes s;
     billing_details := billing_details s; menus := menus s;
     menu_categories := menu_categories s; menu_items := menu_items s;
     menu_item_sizes := menu_item_sizes s;
     menu_option_groups := menu_option_groups s;
     menu_item_option_groups := menu_item_option_groups s;
     menu_options := menu_options s; webhook_logs := webhook_logs s;
     foreign_keys := foreign_keys s |}.
Definition with_order_item_options (t : Table OrderItemOptions.row) (s : Store) : Store :=
  {| restaurants := restaurants s; clients := clients s;
     client_addresses := client_addresses s; orders := orders s;
     order_items := order_items s; order_item_options := t;
     order_coupons := order_coupons s; order_taxes := order_taxes s;
     billing_details := billing_details s; menus := menus s;
     menu_categories := menu_categories s; menu_items := menu_items s;
     menu_item_sizes := menu_item_sizes s;
     menu_option_groups := menu_option_groups s;
     menu_item_option_groups := menu_item_option_groups s;
     menu_options := menu_options s; webhook_logs := webhook_logs s;
     foreign_keys := foreign_keys s |}.
Definition with_order_coupons (t : Table OrderCoupons.row) (s : Store) : Store :=
  {| restaurants := restaurants s; clients := clients s;
     client_addresses := client_addresses s; orders := orders s;
     order_items := order_items s;
     order_item_options := order_item_options s; order_coupons := t;
     order_taxes := order_taxes s; billing_details := billing_details s;
     menus := menus s; menu_categories := menu_categories s;
     menu_items := menu_items s; menu_item_sizes := menu_item_sizes s;
     menu_option_groups := menu_option_groups s;
     menu_item_option_groups := menu_item_option_groups s;
     menu_options := menu_options s; webhook_logs := webhook_logs s;
     foreign_keys := foreign_keys s |}.
Definition with_order_taxes (t : Table OrderTaxes.row) (s : Store) : Store :=
  {| restaurants := restaurants s; clients := clients s;
     client_addresses := client_addresses s; orders := orders s;
     order_items := order_items s;
     order_item_options := order_item_options s;
     order_coupons := order_coupons s; order_taxes := t;
     billing_details := billing_details s; menus := menus s;
     menu_categories := menu_categories s; menu_items := menu_items s;
     menu_item_sizes := menu_item_sizes s;
     menu_option_groups := menu_option_groups s;
     menu_item_option_groups := menu_item_option_groups s;
     menu_options := menu_options s; webhook_logs := webhook_logs s;
     foreign_keys := foreign_keys s |}.
Definition with_billing_details (t : Table BillingDetailsTable.row) (s : Store) : Store :=
  {| restaurants := restaurants s; clients := clients s;
     client_addresses := client_addresses s; orders := orders s;
     order_items := order_items s;
     order_item_options := order_item_options s;
     order_coupons := order_coupons s; order_taxes := order_taxes s;
     billing_details := t; menus := menus s;
     menu_categories := menu_categories s; menu_items := menu_items s;
     menu_item_sizes := menu_item_sizes s;
     menu_option_groups := menu_option_groups s;
     menu_item_option_groups := menu_item_option_groups s;
     menu_options := menu_options s; webhook_logs := webhook_logs s;
     foreign_keys := foreign_keys s |}.
Definition with_menus (t : Table Menus.row) (s : Store) : Store :=
  {| restaurants := restaurants s; clients := clients s;
     client_addresses := client_addresses s; orders := orders s;
     order_items := order_items s;
     order_item_options := order_item_options s;
     order_coupons := order_coupons s; order_taxes := order_taxes s;
     billing_details := billing_details s; menus := t;
     menu_categories := menu_categories s; menu_items := menu_items s;
     menu_item_sizes := menu_item_sizes s;
     menu_option_groups := menu_option_groups s;
     menu_item_option_groups := menu_item_option_groups s;
     menu_options := menu_options s; webhook_logs := webhook_logs s;
     foreign_keys := foreign_keys s |}.
Definition with_menu_categories (t : Table MenuCategories.row) (s : Store) : Store :=
  {| restaurants := restaurants s; clients := clients s;
     client_addresses := client_addresses s; orders := orders s;
     order_items := order_items s;
     order_item_options := order_item_options s;
     order_coupons := order_coupons s; order_taxes := order_taxes s;
     billing_details := billing_details s; menus := menus s;
     menu_categories := t; menu_items := menu_items s;
     menu_item_sizes := menu_item_sizes s;
     menu_option_groups := menu_option_groups s;
     menu_item_option_groups := menu_item_option_groups s;
     menu_options := menu_options s; webhook_logs := webhook_logs s;
     foreign_keys := foreign_keys s |}.
Definition with_menu_items (t : Table MenuItems.row) (s : Store) : Store :=
  {| restaurants := restaurants s; clients := clients s;
     client_addresses := client_addresses s; orders := orders s;
     order_items := order_items s;
     order_item_options := order_item_options s;
     order_coupons := order_coupons s; order_taxes := order_taxes s;
     billing_details := billing_details s; menus := menus s;
     menu_categories := menu_categories s; menu_items := t;
     menu_item_sizes := menu_item_sizes s;
     menu_option_groups := menu_option_groups s;
     menu_item_option_groups := menu_item_option_groups s;
     menu_options := menu_options s; webhook_logs := webhook_logs s;
     foreign_keys := foreign_keys s |}.
Definition with_menu_item_sizes (t : Table MenuItemSizes.row) (s : Store) : Store :=
  {| restaurants := restaurants s; clients := clients s;
     client_addresses := client_addresses s; orders := orders s;
     order_items := order_items s;
     order_item_options := order_item_options s;
     order_coupons := order_coupons s; order_taxes := order_taxes s;
     billing_details := billing_details s; menus := menus s;
     menu_categories := menu_categories s; menu_items := menu_items s;
     menu_item_sizes := t; menu_option_groups := menu_option_groups s;
     menu_item_option_groups := menu_item_option_groups s;
     menu_options := menu_options s; webhook_logs := webhook_logs s;
     foreign_keys := foreign_keys s |}.
Definition with_menu_option_groups (t : Table MenuOptionGroups.row) (s : Store) : Store :=
  {| restaurants := restaurants s; clients := clients s;
     client_addresses := client_addresses s; orders := orders s;
     order_items := order_items s;
     order_item_options := order_item_options s;
     order_coupons := order_coupons s; order_taxes := order_taxes s;
     billing_details := billing_details s; menus := menus s;
     menu_categories := menu_categories s; menu_items := menu_items s;
     menu_item_sizes := menu_item_sizes s; menu_option_groups := t;
     menu_item_option_groups := menu_item_option_groups s;
     menu_options := menu_options s; webhook_logs := webhook_logs s;
     foreign_keys := foreign_keys s |}.
Definition with_menu_item_option_groups (t : Table MenuItemOptionGroups.row) (s : Store) : Store :=
  {| restaurants := restaurants s; clients := clients s;
     client_addresses := client_addresses s; orders := orders s;
     order_items := order_items s;
     order_item_options := order_item_options s;
     order_coupons := order_coupons s; order_taxes := order_taxes s;
     billing_details := billing_details s; menus := menus s;
     menu_categories := menu_categories s; menu_items := menu_items s;
     menu_item_sizes := menu_item_sizes s;
     menu_option_groups := menu_option_groups s;
     menu_item_option_groups := t; menu_options := menu_options s;
     webhook_logs := webhook_logs s; foreign_keys := foreign_keys s |}.
Definition with_menu_options (t : Table MenuOptions.row) (s : Store) : Store :=
  {| restaurants := restaurants s; clients := clients s;
     client_addresses := client_addresses s; orders := orders s;
     order_items := order_items s;
     order_item_options := order_item_options s;
     order_coupons := order_coupons s; order_taxes := order_taxes s;
     billing_details := billing_details s; menus := menus s;
     menu_categories := menu_categories s; menu_items := menu_items s;
     menu_item_sizes := menu_item_sizes s;
     menu_option_groups := menu_option_groups s;
     menu_item_option_groups := menu_item_option_groups s; menu_options := t;
     webhook_logs := webhook_logs s; foreign_keys := foreign_keys s |}.
Definition with_webhook_logs (t : Table WebhookLogs.row) (s : Store) : Store :=
  {| restaurants := restaurants s; clients := clients s;
     client_addresses := client_addresses s; orders := orders s;
     order_items := order_items s;
     order_item_options := order_item_options s;
     order_coupons := order_coupons s; order_taxes := order_taxes s;
     billing_details := billing_details s; menus := menus s;
     menu_categories := menu_categories s; menu_items := menu_items s;
     menu_item_sizes := menu_item_sizes s;
     menu_option_groups := menu_option_groups s;
     menu_item_option_groups := menu_item_option_groups s;
     menu_options := menu_options s; webhook_logs := t;
     foreign_keys := foreign_keys s |}.

(** The primary key of a row. *)
Class RowId (R : Type) := row_id : R → Z.
#[global] Instance Restaurants_id : RowId Restaurants.row := Restaurants.id.
#[global] Instance Clients_id : RowId Clients.row := Clients.id.
#[global] Instance ClientAddresses_id : RowId ClientAddresses.row := ClientAddresses.id.
#[global] Instance Orders_id : RowId Orders.row := Orders.id.
#[global] Instance OrderItems_id : RowId OrderItems.row := OrderItems.id.
#[global] Instance OrderItemOptions_id : RowId OrderItemOptions.row := OrderItemOptions.id.
#[global] Instance OrderCoupons_id : RowId OrderCoupons.row := OrderCoupons.id.
#[global] Instance OrderTaxes_id : RowId OrderTaxes.row := OrderTaxes.id.
#[global] Instance BillingDetailsTable_id : RowId BillingDetailsTable.row := BillingDetailsTable.id.
#[global] Instance Menus_id : RowId Menus.row := Menus.id.
#[global] Instance MenuCategories_id : RowId MenuCategories.row := MenuCategories.id.
#[global] Instance MenuItems_id : RowId MenuItems.row := MenuItems.id.
#[global] Instance MenuItemSizes_id : RowId MenuItemSizes.row := MenuItemSizes.id.
#[global] Instance MenuOptionGroups_id : RowId MenuOptionGroups.row := MenuOptionGroups.id.
#[global] Instance MenuItemOptionGroups_id : RowId MenuItemOptionGroups.row := MenuItemOptionGroups.id.
#[global] Instance MenuOptions_id : RowId MenuOptions.row := MenuOptions.id.
#[global] Instance WebhookLogs_id : RowId WebhookLogs.row := WebhookLogs.id.

(** The primary keys of a table, and whether one of them is [i]. *)
Definition table_ids {R} `{RowId R} (t : Table R) : list Z := row_id <$> rows t.
Definition has_id {R} `{RowId R} (t : Table R) (i : Z) : Prop := i ∈ table_ids t.
#[global] Instance has_id_dec {R} `{RowId R} (t : Table R) i : Decision (has_id t i).
Proof. unfold has_id. apply _. Defined.

(** A nullable reference [o] points into the list of keys [ids]. *)
Definition refers (o : option Z) (ids : list Z) : Prop :=
  match o with
  | Some i => i ∈ ids
  | None => False
  end.
#[global] Instance refers_dec o ids : Decision (refers o ids).
Proof. destruct o; simpl; apply _. Defined.

(** ** The documents of the KV cache *)

(** What [getFullMenu] builds from the rows. *)
Module FullMenu.
Record Group := {
  group : MenuOptionGroups.row;
  options : list MenuOptions.row }.
Record Item := {
  item : MenuItems.row;
  tags : list MenuItemTag;
  order_types : list OrderType;
  allergens : list Allergen.t;
  nutritional_values : list NutritionalValue.t;
  sizes : list MenuItemSizes.row;
  groups : list Group }.
Record Category := {
  category : MenuCategories.row;
  items : list Item }.
Record t := {
  menu : Menus.row;
  categories : list Category }.
End FullMenu.

Inductive CacheDoc :=
| DocSnapshot (menuData : GloriaFoodMenuResponse.t)
| DocFullMenu (fullMenu : FullMenu.t)
| DocOther (text : string).

(** ** Worlds, outcomes and the monad of [async] methods *)

Inductive Error :=
| UniqueConstraintFailed (columns : string)
| ForeignKeyConstraintFailed
| BackendUnavailable
| HttpStatusError (what : string) (status : string) (statusText : string)
| NetworkError (message : string)
| InvalidJson.

(** [error instanceof Error ? error.message : 'Unknown error'] *)
Definition error_message (e : Error) : string :=
  match e with
  | UniqueConstraintFailed columns => "UNIQUE constraint failed: " ++ columns
  | ForeignKeyConstraintFailed => "FOREIGN KEY constraint failed"
  | BackendUnavailable => "backend unavailable"
  | HttpStatusError what status statusText =>
      "Error " ++ what ++ ": " ++ status ++ " " ++ statusText
  | NetworkError message => message
  | InvalidJson => "Unexpected end of JSON input"
  end.

Inductive Outcome (A : Type) :=
| Returned (a : A)
| Thrown (e : Error).
Arguments Returned {A} a.
Arguments Thrown {A} e.

(** [cache] maps a key to its document and the time at which it expires. *)
Record World := {
  db : Store;
  cache : gmap string (CacheDoc * Z);
  faults : list bool;
  clock : Z }.

Definition with_db (s : Store) (w : World) : World :=
  {| db := s; cache := cache w; faults := faults w; clock := clock w |}.
Definition with_cache (c : gmap string (CacheDoc * Z)) (w : World) : World :=
  {| db := db w; cache := c; faults := faults w; clock := clock w |}.
Definition with_faults (f : list bool) (w : World) : World :=
  {| db := db w; cache := cache w; faults := f; clock := clock w |}.
Definition with_clock (t : Z) (w : World) : World :=
  {| db := db w; cache := cache w; faults := faults w; clock := t |}.

Definition M (A : Type) : Type := World → World * Outcome A.

Definition ret {A} (a : A) : M A := λ w, (w, Returned a).
Definition throw {A} (e : Error) : M A := λ w, (w, Thrown e).
Definition bind {A B} (m : M A) (k : A → M B) : M B := λ w,
  match m w with
  | (w', Returned a) => k a w'
  | (w', Thrown e) => (w', Thrown e)
  end.
(** [try { m } catch (error) { h error }] *)
Definition try_catch {A} (m : M A) (h : Error → M A) : M A := λ w,
  match m w with
  | (w', Returned a) => (w', Returned a)
  | (w', Thrown e) => h e w'
  end.

Notation "'let*' x ':=' m 'in' k" := (bind m (λ x, k))
  (at level 10, x pattern, m at level 100, k at level 200,
   format "'[v' 'let*'  x  ':='  m  'in' '/' k ']'").

(** [for (const x of l) { s = await body(s, x) }] *)
Fixpoint for_each {A S} (l : list A) (body : S → A → M S) (s : S) : M S :=
  match l with
  | [] => ret s
  | x :: l' => let* s' := body s x in for_each l' body s'
  end.

(** One call to the backend: it fails when the next outcome says so. *)
Definition backend {A} (op : M A) : M A := λ w,
  match faults w with
  | [] => op w
  | false :: fs => op (with_faults fs w)
  | true :: fs => (with_faults fs w, Thrown BackendUnavailable)
  end.

(** [db.prepare(sql).bind(...).first()] / [.all()] *)
Definition d1_query {A} (q : Store → A) : M A :=
  backend (λ w, (w, Returned (q (db w)))).

(** [db.prepare(sql).bind(...).run()]: a failed statement changes nothing. *)
Definition d1_run {A} (stmt : Z → Store → Outcome (Store * A)) : M A :=
  backend (λ w,
    match stmt (clock w) (db w) with
    | Returned (s', a) => (with_db s' w, Returned a)
    | Thrown e => (w, Thrown e)
    end).

(** The document that the cache holds for [key]: an expired entry is
    not returned. *)
Definition cache_lookup (w : World) (key : string) : option CacheDoc :=
  match cache w !! key with
  | Some (doc, expires) => if decide (clock w < expires) then Some doc else None
  | None => None
  end.

(** [cache.get(key)] *)
Definition kv_get (key : string) : M (option CacheDoc) :=
  backend (λ w, (w, Returned (cache_lookup w key))).

(** [cache.put(key, JSON.stringify(doc), { expirationTtl })] *)
Definition kv_put (key : string) (doc : CacheDoc) (expirationTtl : Z) : M unit :=
  backend (λ w,
    (with_cache (<[key := (doc, clock w + expirationTtl)]> (cache w)) w,
     Returned tt)).

(** [cache.delete(key)] *)
Definition kv_delete (key : string) : M unit :=
  backend (λ w, (with_cache (delete key (cache w)) w, Returned tt)).

(** ** SQL statements

    Every statement of the services, as a function of the clock and of
    the store.  [INSERT] returns [meta.last_row_id]. *)

Module Sql.

Definition statement (A : Type) : Type := Z → Store → Outcome (Store * A).

(** A foreign key check, made only when the flag is on. *)
Definition fk_holds (s : Store) (parents_exist : bool) : bool :=
  if foreign_keys s then parents_exist else true.

(** A nullable reference is either NULL or an existing key. *)
Definition null_or_in (o : option Z) (ids : list Z) : Prop :=
  match o with
  | Some i => i ∈ ids
  | None => True
  end.
#[global] Instance null_or_in_dec o ids : Decision (null_or_in o ids).
Proof. destruct o; simpl; apply _. Defined.

(** The value [k] of a UNIQUE column is already taken. *)
Definition taken {R K} `{EqDecision K} (key : R → K) (t : Table R) (k : K) : bool :=
  bool_decide (k ∈ key <$> rows t).

(** [INSERT INTO t ...]: [unique] names the UNIQUE constraint that the
    new row violates, if any; [parents] says that the rows it refers to
    exist. *)
Definition insert {R} (get : Store → Table R) (set : Table R → Store → Store)
    (unique : Store → R → option string) (parents : Store → R → bool)
    (mk : Z → Z → R) : statement Z := λ now s,
  let id := next_id (get s) in
  let r := mk now id in
  match unique s r with
  | Some columns => Thrown (UniqueConstraintFailed columns)
  | None =>
      if fk_holds s (parents s r) then
        Returned (set {| rows := rows (get s) ++ [r]; next_id := id + 1 |} s, id)
      else Thrown ForeignKeyConstraintFailed
  end.

Definition no_unique {R} : Store → R → option string := λ _ _, None.
Definition no_parent {R} : Store → R → bool := λ _ _, true.

(** [UPDATE t SET ... WHERE P] on columns that no constraint mentions. *)
Definition update {R} (get : Store → Table R) (set : Table R → Store → Store)
    (P : R → Prop) `{∀ r, Decision (P r)} (f : Z → R → R) : statement unit :=
  λ now s, Returned (set (table_update P (f now) (get s)) s, tt).

(** *** restaurants: [gloriafood_id] UNIQUE, [restaurant_key] UNIQUE *)
Definition insert_restaurant :=
  insert restaurants with_restaurants
    (λ s r,
       if taken Restaurants.gloriafood_id (restaurants s) (Restaurants.gloriafood_id r)
       then Some "restaurants.gloriafood_id"
       else if taken Restaurants.restaurant_key (restaurants s)
                 (Restaurants.restaurant_key r)
       then Some "restaurants.restaurant_key"
       else None)
    no_parent.

(** *** clients: [gloriafood_id] UNIQUE *)
Definition insert_client :=
  insert clients with_clients
    (λ s r,
       if taken Clients.gloriafood_id (clients s) (Clients.gloriafood_id r)
       then Some "clients.gloriafood_id" else None)
    no_parent.

(** *** client_addresses *)
Definition insert_client_address :=
  insert client_addresses with_client_addresses no_unique
    (λ s r, bool_decide (has_id (clients s) (ClientAddresses.client_id r))).

(** *** orders: UNIQUE(gloriafood_id, pos_system_id) *)
Definition order_key (r : Orders.row) : Z * Z :=
  (Orders.gloriafood_id r, Orders.pos_system_id r).

Definition insert_order :=
  insert orders with_orders
    (λ s r,
       if taken order_key (orders s) (order_key r)
       then Some "orders.gloriafood_id, orders.pos_system_id" else None)
    (λ s r, bool_decide (has_id (restaurants s) (Orders.restaurant_id r))
            && bool_decide (null_or_in (Orders.client_id r) (table_ids (clients s)))).

Definition insert_order_item :=
  insert order_items with_order_items no_unique
    (λ s r, bool_decide (has_id (orders s) (OrderItems.order_id r))
            && bool_decide (null_or_in (OrderItems.parent_id r)
                              (table_ids (order_items s)))).

Definition insert_order_item_option :=
  insert order_item_options with_order_item_options no_unique
    (λ s r, bool_decide (has_id (order_items s) (OrderItemOptions.order_item_id r))).

Definition insert_order_coupon :=
  insert order_coupons with_order_coupons no_unique
    (λ s r, bool_decide (has_id (orders s) (OrderCoupons.order_id r))).

Definition insert_order_tax :=
  insert order_taxes with_order_taxes no_unique
    (λ s r, bool_decide (has_id (orders s) (OrderTaxes.order_id r))).

(** *** billing_details: [order_id] UNIQUE *)
Definition insert_billing_details :=
  insert billing_details with_billing_details
    (λ s r,
       if taken BillingDetailsTable.order_id (billing_details s)
            (BillingDetailsTable.order_id r)
       then Some "billing_details.order_id" else None)
    (λ s r, bool_decide (has_id (orders s) (BillingDetailsTable.order_id r))).

(** *** menus: [gloriafood_id] UNIQUE *)
Definition insert_menu :=
  insert menus with_menus
    (λ s r,
       if taken Menus.gloriafood_id (menus s) (Menus.gloriafood_id r)
       then Some "menus.gloriafood_id" else None)
    (λ s r, bool_decide (has_id (restaurants s) (Menus.restaurant_id r))).

Definition insert_menu_category :=
  insert menu_categories with_menu_categories no_unique
    (λ s r, bool_decide (has_id (menus s) (MenuCategories.menu_id r))).

Definition insert_menu_item :=
  insert menu_items with_menu_items no_unique
    (λ s r, bool_decide (has_id (menu_categories s) (MenuItems.category_id r))).

Definition insert_menu_item_size :=
  insert menu_item_sizes with_menu_item_sizes no_unique
    (λ s r, bool_decide (has_id (menu_items s) (MenuItemSizes.item_id r))).

Definition insert_menu_option_group :=
  insert menu_option_groups with_menu_option_groups no_unique no_parent.

(** [INSERT OR IGNORE]: the table has no UNIQUE or NOT NULL column that
    the statement could violate, so nothing is ever ignored; a foreign
    key failure is not covered by [OR IGNORE]. *)
Definition insert_or_ignore_menu_item_option_group :=
  insert menu_item_option_groups with_menu_item_option_groups no_unique
    (λ s r,
       bool_decide (null_or_in (MenuItemOptionGroups.item_id r)
                      (table_ids (menu_items s)))
       && bool_decide (null_or_in (MenuItemOptionGroups.size_id r)
                         (table_ids (menu_item_sizes s)))
       && bool_decide (has_id (menu_option_groups s)
                         (MenuItemOptionGroups.option_group_id r))).

Definition insert_menu_option :=
  insert menu_options with_menu_options no_unique
    (λ s r, bool_decide (has_id (menu_option_groups s)
                           (MenuOptions.option_group_id r))).

Definition insert_webhook_log :=
  insert webhook_logs with_webhook_logs no_unique no_parent.

(** *** DELETE with ON DELETE CASCADE

    Each function removes the rows satisfying [P] and, when foreign keys
    are enforced, the rows of the child tables that refer to them. *)

Definition delete_associations (P : MenuItemOptionGroups.row → Prop)
    `{∀ r, Decision (P r)} (s : Store) : Store :=
  with_menu_item_option_groups (table_delete P (menu_item_option_groups s)) s.

Definition delete_sizes (P : MenuItemSizes.row → Prop)
    `{∀ r, Decision (P r)} (s : Store) : Store :=
  let gone := row_id <$> table_select P (menu_item_sizes s) in
  let s := with_menu_item_sizes (table_delete P (menu_item_sizes s)) s in
  if foreign_keys s then
    delete_associations (λ a, refers (MenuItemOptionGroups.size_id a) gone) s
  else s.

Definition delete_items (P : MenuItems.row → Prop)
    `{∀ r, Decision (P r)} (s : Store) : Store :=
  let gone := row_id <$> table_select P (menu_items s) in
  let s := with_menu_items (table_delete P (menu_items s)) s in
  if foreign_keys s then
    delete_associations (λ a, refers (MenuItemOptionGroups.item_id a) gone)
      (delete_sizes (λ z, MenuItemSizes.item_id z ∈ gone) s)
  else s.

Definition delete_categories (P : MenuCategories.row → Prop)
    `{∀ r, Decision (P r)} (s : Store) : Store :=
  let gone := row_id <$> table_select P (menu_categories s) in
  let s := with_menu_categories (table_delete P (menu_categories s)) s in
  if foreign_keys s then
    delete_items (λ i, MenuItems.category_id i ∈ gone) s
  else s.

Definition delete_of (f : Store → Store) : statement unit :=
  λ _ s, Returned (f s, tt).

(** [column = ?] on a nullable column: NULL equals nothing. *)
Definition eq_nullable {A} (column bound : option A) : Prop :=
  match column, bound with
  | Some a, Some b => a = b
  | _, _ => False
  end.
#[global] Instance eq_nullable_dec {A} `{EqDecision A} (c b : option A) :
  Decision (eq_nullable c b).
Proof. destruct c, b; simpl; apply _. Defined.

(** [COALESCE(?, column)] *)
Definition coalesce {A} (bound column : option A) : option A :=
  match bound with
  | Some a => Some a
  | None => column
  end.

End Sql.

(** ** OrdersService (services/orders.ts) *)

Module OrdersService.

Record ProcessResult := { orderId : Z; isNew : bool }.

(** [order.pos_system_id || 0] *)
Definition pos_system_id_or_0 (order : GloriaFoodOrder.t) : Z :=
  Js.num_or (GloriaFoodOrder.pos_system_id order) 0.

Definition saveClientAddress (clientId : Z) (order : GloriaFoodOrder.t) : M unit :=
  match GloriaFoodOrder.client_address_parts order with
  | None => ret tt
  | Some parts =>
      let full :=
        Js.str_or_else (AddressParts.full_address parts)
          (GloriaFoodOrder.client_address order) in
      let* existing :=
        d1_query (λ s,
          table_first
            (λ r, ClientAddresses.client_id r = clientId
                  ∧ Sql.eq_nullable (ClientAddresses.full_address r) full)
            (client_addresses s)) in
      match existing with
      | Some _ => ret tt
      | None =>
          let* _ :=
            d1_run (Sql.insert_client_address (λ now id,
              {| ClientAddresses.id := id;
                 ClientAddresses.client_id := clientId;
                 ClientAddresses.full_address := full;
                 ClientAddresses.street := Js.str_or_null (AddressParts.street parts);
                 ClientAddresses.city := Js.str_or_null (AddressParts.city parts);
                 ClientAddresses.zipcode := Js.str_or_null (AddressParts.zipcode parts);
                 ClientAddresses.bloc := Js.str_or_null (AddressParts.bloc parts);
                 ClientAddresses.floor := Js.str_or_null (AddressParts.floor parts);
                 ClientAddresses.apartment :=
                   Js.str_or_null (AddressParts.apartment parts);
                 ClientAddresses.intercom := Js.str_or_null (AddressParts.intercom parts);
                 ClientAddresses.latitude :=
                   Js.str_or_null (GloriaFoodOrder.latitude order);
                 ClientAddresses.longitude :=
                   Js.str_or_null (GloriaFoodOrder.longitude order);
                 ClientAddresses.delivery_zone :=
                   Js.str_or_null (GloriaFoodOrder.delivery_zone_name order);
                 ClientAddresses.created_at := now |})) in
          ret tt
      end
  end.

(** [if (order.type === 'delivery' && order.client_address_parts)] *)
Definition saveAddressIfDelivery (clientId : Z) (order : GloriaFoodOrder.t) : M unit :=
  match GloriaFoodOrder.type order, GloriaFoodOrder.client_address_parts order with
  | delivery, Some _ => saveClientAddress clientId order
  | _, _ => ret tt
  end.

(** The [UPDATE clients SET ...] of [getOrCreateClient]. *)
Definition updateClientRow (order : GloriaFoodOrder.t) (now : Z)
    (r : Clients.row) : Clients.row :=
  {| Clients.id := Clients.id r;
     Clients.gloriafood_id := Clients.gloriafood_id r;
     Clients.first_name :=
       Sql.coalesce (GloriaFoodOrder.client_first_name order) (Clients.first_name r);
     Clients.last_name :=
       Sql.coalesce (GloriaFoodOrder.client_last_name order) (Clients.last_name r);
     Clients.email :=
       Sql.coalesce (GloriaFoodOrder.client_email order) (Clients.email r);
     Clients.phone :=
       Sql.coalesce (GloriaFoodOrder.client_phone order) (Clients.phone r);
     Clients.order_count := Js.num_or (GloriaFoodOrder.client_order_count order) 0;
     Clients.marketing_consent :=
       Js.opt_flag (GloriaFoodOrder.client_marketing_consent order);
     Clients.created_at := Clients.created_at r;
     Clients.updated_at := now |}.

Definition getOrCreateClient (order : GloriaFoodOrder.t) : M (option Z) :=
  let clientGloriaFoodId :=
    Js.num_or_else (GloriaFoodOrder.client_id order) (GloriaFoodOrder.user_id order) in
  match Js.num_or_null clientGloriaFoodId with
  | None => ret None
  | Some gid =>
      let* existing :=
        d1_query (λ s,
          table_first (λ r, Clients.gloriafood_id r = gid) (clients s)) in
      match existing with
      | Some ex =>
          let* _ :=
            d1_run (Sql.update clients with_clients
                      (λ r, Clients.id r = Clients.id ex)
                      (updateClientRow order)) in
          let* _ := saveAddressIfDelivery (Clients.id ex) order in
          ret (Some (Clients.id ex))
      | None =>
          let* clientId :=
            d1_run (Sql.insert_client (λ now id,
              {| Clients.id := id;
                 Clients.gloriafood_id := gid;
                 Clients.first_name :=
                   Js.str_or_null (GloriaFoodOrder.client_first_name order);
                 Clients.last_name :=
                   Js.str_or_null (GloriaFoodOrder.client_last_name order);
                 Clients.email := Js.str_or_null (GloriaFoodOrder.client_email order);
                 Clients.phone := Js.str_or_null (GloriaFoodOrder.client_phone order);
                 Clients.order_count :=
                   Js.num_or (GloriaFoodOrder.client_order_count order) 1;
                 Clients.marketing_consent :=
                   Js.opt_flag (GloriaFoodOrder.client_marketing_consent order);
                 Clients.created_at := now;
                 Clients.updated_at := now |})) in
          let* _ := saveAddressIfDelivery clientId order in
          ret (Some clientId)
      end
  end.

Definition getOrCreateRestaurant (order : GloriaFoodOrder.t) : M Z :=
  let* existing :=
    d1_query (λ s,
      table_first
        (λ r, Restaurants.restaurant_key r = GloriaFoodOrder.restaurant_key order)
        (restaurants s)) in
  match existing with
  | Some ex => ret (Restaurants.id ex)
  | None =>
      d1_run (Sql.insert_restaurant (λ now id,
        {| Restaurants.id := id;
           Restaurants.gloriafood_id := GloriaFoodOrder.restaurant_id order;
           Restaurants.restaurant_key := GloriaFoodOrder.restaurant_key order;
           Restaurants.name := GloriaFoodOrder.restaurant_name order;
           Restaurants.timezone :=
             Js.str_or (GloriaFoodOrder.restaurant_timezone order) "UTC";
           Restaurants.currency := GloriaFoodOrder.currency order;
           Restaurants.active := 1;
           Restaurants.created_at := now;
           Restaurants.updated_at := now |}))
  end.

Definition insertItemOption (itemId : Z) (option : OrderItemOption.t) : M unit :=
  let* _ :=
    d1_run (Sql.insert_order_item_option (λ now id,
      {| OrderItemOptions.id := id;
         OrderItemOptions.order_item_id := itemId;
         OrderItemOptions.gloriafood_id := OrderItemOption.id option;
         OrderItemOptions.name := OrderItemOption.name option;
         OrderItemOptions.group_name :=
           Js.str_or_null (OrderItemOption.group_name option);
         OrderItemOptions.type := OrderItemOption.type option;
         OrderItemOptions.type_id := Js.num_or_null (OrderItemOption.type_id option);
         OrderItemOptions.quantity := OrderItemOption.quantity option;
         OrderItemOptions.price := OrderItemOption.price option;
         OrderItemOptions.kitchen_internal_name :=
           Js.str_or_null (OrderItemOption.kitchen_internal_name option) |})) in
  ret tt.

Definition insertOrderItem (orderId : Z) (item : OrderItem.t) : M unit :=
  let* itemId :=
    d1_run (Sql.insert_order_item (λ now id,
      {| OrderItems.id := id;
         OrderItems.order_id := orderId;
         OrderItems.gloriafood_id := OrderItem.id item;
         OrderItems.parent_id := None;
         OrderItems.name := OrderItem.name item;
         OrderItems.type := OrderItem.type item;
         OrderItems.type_id := Js.num_or_null (OrderItem.type_id item);
         OrderItems.quantity := OrderItem.quantity item;
         OrderItems.price := OrderItem.price item;
         OrderItems.total_price := OrderItem.total_item_price item;
         OrderItems.tax_rate := Js.num_or (OrderItem.tax_rate item) 0;
         OrderItems.tax_value := Js.num_or (OrderItem.tax_value item) 0;
         OrderItems.tax_type := Js.enum_or_null (OrderItem.tax_type item);
         OrderItems.item_discount := Js.num_or (OrderItem.item_discount item) 0;
         OrderItems.cart_discount := Js.num_or (OrderItem.cart_discount item) 0;
         OrderItems.cart_discount_rate :=
           Js.num_or (OrderItem.cart_discount_rate item) 0;
         OrderItems.instructions := Js.str_or_null (OrderItem.instructions item);
         OrderItems.kitchen_internal_name :=
           Js.str_or_null (OrderItem.kitchen_internal_name item);
         OrderItems.coupon := Js.str_or_null (OrderItem.coupon item);
         OrderItems.created_at := now |})) in
  match OrderItem.options item with
  | Some options => for_each options (λ _ option, insertItemOption itemId option) tt
  | None => ret tt
  end.

Definition insertOrderItems (orderId : Z) (items : list OrderItem.t) : M unit :=
  for_each items (λ _ item, insertOrderItem orderId item) tt.

Definition insertBillingDetails (orderId : Z)
    (billing : option BillingDetails.t) : M unit :=
  match billing with
  | None => ret tt
  | Some billing =>
      let* _ :=
        d1_run (Sql.insert_billing_details (λ now id,
          {| BillingDetailsTable.id := id;
             BillingDetailsTable.order_id := orderId;
             BillingDetailsTable.type := Js.str_or_null (BillingDetails.type billing);
             BillingDetailsTable.company_name :=
               Js.str_or_null (BillingDetails.company_name billing);
             BillingDetailsTable.cui := Js.str_or_null (BillingDetails.cui billing);
             BillingDetailsTable.reg_com :=
               Js.str_or_null (BillingDetails.reg_com billing);
             BillingDetailsTable.person_name :=
               Js.str_or_null (BillingDetails.person_name billing);
             BillingDetailsTable.person_type :=
               Js.str_or_null (BillingDetails.person_type billing);
             BillingDetailsTable.document_type :=
               Js.str_or_null (BillingDetails.document_type billing);
             BillingDetailsTable.document_number :=
               Js.str_or_null (BillingDetails.document_number billing);
             BillingDetailsTable.address :=
               Js.str_or_null (BillingDetails.address billing);
             BillingDetailsTable.city := Js.str_or_null (BillingDetails.city billing);
             BillingDetailsTable.region :=
               Js.str_or_null (BillingDetails.region billing);
             BillingDetailsTable.sector :=
               Js.str_or_null (BillingDetails.sector billing);
             BillingDetailsTable.country_code :=
               Js.str_or_null (BillingDetails.country_code billing) |})) in
      ret tt
  end.

(** [order.items.find(i => i.type === t)?.total_item_price || 0] *)
Definition amountOfItemType (t : OrderItemType) (order : GloriaFoodOrder.t) : Z :=
  Js.num_or
    (OrderItem.total_item_price <$>
       head (filter (λ i, OrderItem.type i = t) (GloriaFoodOrder.items order)))
    0.

(** The row bound by the [INSERT INTO orders] of [processOrder]. *)
Definition orderRow (order : GloriaFoodOrder.t) (restaurantId : Z)
    (clientId : option Z) (now id : Z) : Orders.row :=
  let paymentMethod :=
    match GloriaFoodOrder.type order with
    | delivery => GloriaFoodOrder.delivery_payment order
    | pickup => GloriaFoodOrder.pickup_payment order
    end in
  let tipAmount := amountOfItemType tip_ order in
  let deliveryFee := amountOfItemType delivery_fee_ order in
  {| Orders.id := id;
     Orders.gloriafood_id := GloriaFoodOrder.id order;
     Orders.pos_system_id := pos_system_id_or_0 order;
     Orders.restaurant_id := restaurantId;
     Orders.client_id := clientId;
     Orders.status := GloriaFoodOrder.status order;
     Orders.type := GloriaFoodOrder.type order;
     Orders.source := Js.str_or_null (GloriaFoodOrder.source order);
     Orders.currency := GloriaFoodOrder.currency order;
     Orders.total_price := GloriaFoodOrder.total_price order;
     Orders.sub_total_price := GloriaFoodOrder.sub_total_price order;
     Orders.tax_value := GloriaFoodOrder.tax_value order;
     Orders.tax_type := GloriaFoodOrder.tax_type order;
     Orders.tax_name := Js.str_or_null (GloriaFoodOrder.tax_name order);
     Orders.payment_method := Js.enum_or_null paymentMethod;
     Orders.payment_status :=
       Js.str_or (PaymentInfo.payment_status <$> GloriaFoodOrder.payment order)
         "pending";
     Orders.instructions := Js.str_or_null (GloriaFoodOrder.instructions order);
     Orders.fulfill_at := GloriaFoodOrder.fulfill_at order;
     Orders.accepted_at := GloriaFoodOrder.accepted_at order;
     Orders.for_later := Js.opt_flag (GloriaFoodOrder.for_later order);
     Orders.pin_skipped := Js.opt_flag (GloriaFoodOrder.pin_skipped order);
     Orders.delivery_fee := deliveryFee;
     Orders.delivery_address := Js.str_or_null (GloriaFoodOrder.client_address order);
     Orders.delivery_latitude := Js.str_or_null (GloriaFoodOrder.latitude order);
     Orders.delivery_longitude := Js.str_or_null (GloriaFoodOrder.longitude order);
     Orders.delivery_zone :=
       Js.str_or_null (GloriaFoodOrder.delivery_zone_name order);
     Orders.outside_delivery_area :=
       Js.opt_flag (GloriaFoodOrder.outside_delivery_area order);
     Orders.tip_amount := tipAmount;
     Orders.raw_payload := order;
     Orders.created_at := now;
     Orders.updated_at := now |}.

(** The deduplication query that opens [processOrder]. *)
Definition processOrder_lookup (order : GloriaFoodOrder.t) : M (option Orders.row) :=
  d1_query (λ s,
    table_first
      (λ r, Orders.gloriafood_id r = GloriaFoodOrder.id order
            ∧ Orders.pos_system_id r = pos_system_id_or_0 order)
      (orders s)).

(** The inserts made for an order after its insertion in [orders]. *)
Definition processOrder_details (orderId : Z) (order : GloriaFoodOrder.t) : M unit :=
  let* _ := insertOrderItems orderId (GloriaFoodOrder.items order) in
  let* _ :=
    match GloriaFoodOrder.coupons order with
    | Some coupons =>
        for_each coupons (λ _ coupon,
          let* _ :=
            d1_run (Sql.insert_order_coupon (λ now id,
              {| OrderCoupons.id := id;
                 OrderCoupons.order_id := orderId;
                 OrderCoupons.coupon_code := coupon;
                 OrderCoupons.created_at := now |})) in
          ret tt) tt
    | None => ret tt
    end in
  let* _ :=
    match GloriaFoodOrder.tax_list order with
    | Some tax_list =>
        for_each tax_list (λ _ tax,
          let* _ :=
            d1_run (Sql.insert_order_tax (λ now id,
              {| OrderTaxes.id := id;
                 OrderTaxes.order_id := orderId;
                 OrderTaxes.type := OrderTax.type tax;
                 OrderTaxes.rate := OrderTax.rate tax;
                 OrderTaxes.value := OrderTax.value tax |})) in
          ret tt) tt
    | None => ret tt
    end in
  let* _ := insertBillingDetails orderId (GloriaFoodOrder.billing_details order) in
  kv_delete "dashboard:stats".

(** [processOrder] from the point where the deduplication query found
    no row. *)
Definition processOrder_insert (order : GloriaFoodOrder.t) : M ProcessResult :=
  let* clientId := getOrCreateClient order in
  let* restaurantId := getOrCreateRestaurant order in
  let* orderId := d1_run (Sql.insert_order (orderRow order restaurantId clientId)) in
  let* _ := processOrder_details orderId order in
  ret {| orderId := orderId; isNew := true |}.

(** [processOrder] after its deduplication query returned [existing]. *)
Definition processOrder_continue (order : GloriaFoodOrder.t)
    (existing : option Orders.row) : M ProcessResult :=
  match existing with
  | Some ex => ret {| orderId := Orders.id ex; isNew := false |}
  | None => processOrder_insert order
  end.

Definition processOrder (order : GloriaFoodOrder.t) : M ProcessResult :=
  let* existing := processOrder_lookup order in
  processOrder_continue order existing.


End OrdersService.

(** ** GloriaFoodClient (services/gloriafood-client.ts) *)

(** What the platform answers to a request. *)
Inductive HttpResponse (A : Type) :=
| HttpOk (body : A)
| HttpNotOk (status statusText : string)
| HttpUnreachable (message : string).
Arguments HttpOk {A} body.
Arguments HttpNotOk {A} status statusText.
Arguments HttpUnreachable {A} message.

Module GloriaFoodClient.

Definition fetchMenu (remote : HttpResponse GloriaFoodMenuResponse.t)
    : M GloriaFoodMenuResponse.t :=
  match remote with
  | HttpOk body => ret body
  | HttpNotOk status statusText =>
      throw (HttpStatusError "fetching menu" status statusText)
  | HttpUnreachable message => throw (NetworkError message)
  end.

Definition pollOrders (remote : HttpResponse GloriaFoodOrderResponse.t)
    : M GloriaFoodOrderResponse.t :=
  match remote with
  | HttpOk body => ret body
  | HttpNotOk status statusText =>
      throw (HttpStatusError "polling orders" status statusText)
  | HttpUnreachable message => throw (NetworkError message)
  end.

Definition validateWebhookRequest (authHeader masterKey : option string) : bool :=
  if Js.str_falsy authHeader || Js.str_falsy masterKey then false
  else bool_decide (authHeader = masterKey).

End GloriaFoodClient.

(** ** MenuService (services/menu.ts) *)

(** A parameter with the default value [0]. *)
Definition or_default_0 (arg : option Z) : Z := default 0 arg.

(** [ORDER BY sort_order]: a stable insertion sort. *)
Fixpoint insert_by {A} (key : A → Z) (x : A) (l : list A) : list A :=
  match l with
  | [] => [x]
  | y :: l' => if decide (key x < key y) then x :: y :: l' else y :: insert_by key x l'
  end.
Definition order_by {A} (key : A → Z) (l : list A) : list A :=
  foldr (λ x acc, insert_by key x acc) [] l.

(** [Promise.all(l.map(async x => f x))]: the callbacks only read the
    store, so they are run one after the other. *)
Fixpoint map_all {A B} (f : A → M B) (l : list A) : M (list B) :=
  match l with
  | [] => ret []
  | x :: l' =>
      let* y := f x in
      let* ys := map_all f l' in
      ret (y :: ys)
  end.

Module MenuService.

Record SyncResult := { success : bool; message : string; stats : Stats.t }.

Definition logEvent (eventType : string) (payload : LogPayload) (status : string)
    (errorMessage : option string) : M unit :=
  let* _ :=
    d1_run (Sql.insert_webhook_log (λ now id,
      {| WebhookLogs.id := id;
         WebhookLogs.event_type := eventType;
         WebhookLogs.payload := payload;
         WebhookLogs.status := status;
         WebhookLogs.error_message := Js.str_or_null errorMessage;
         WebhookLogs.created_at := now |})) in
  ret tt.

Definition getOrCreateMenu (menuData : GloriaFoodMenuResponse.t) : M Z :=
  let* existing :=
    d1_query (λ s,
      table_first
        (λ r, Menus.gloriafood_id r = GloriaFoodMenuResponse.id menuData)
        (menus s)) in
  match existing with
  | Some ex =>
      let* _ :=
        d1_run (Sql.update menus with_menus (λ r, Menus.id r = Menus.id ex)
          (λ _ r,
             {| Menus.id := Menus.id r;
                Menus.gloriafood_id := Menus.gloriafood_id r;
                Menus.restaurant_id := Menus.restaurant_id r;
                Menus.currency := GloriaFoodMenuResponse.currency menuData;
                Menus.active := Js.flag (GloriaFoodMenuResponse.active menuData);
                Menus.synced_at := Menus.synced_at r |})) in
      ret (Menus.id ex)
  | None =>
      d1_run (Sql.insert_menu (λ now id,
        {| Menus.id := id;
           Menus.gloriafood_id := GloriaFoodMenuResponse.id menuData;
           Menus.restaurant_id := GloriaFoodMenuResponse.restaurant_id menuData;
           Menus.currency := GloriaFoodMenuResponse.currency menuData;
           Menus.active := Js.flag (GloriaFoodMenuResponse.active menuData);
           Menus.synced_at := now |}))
  end.

(** The body of the loop over the items of one category in
    [clearMenuData]. *)
Definition clearItem (itemId : Z) : M unit :=
  let* _ :=
    d1_run (Sql.delete_of
      (Sql.delete_sizes (λ z, MenuItemSizes.item_id z = itemId))) in
  d1_run (Sql.delete_of
    (Sql.delete_associations
       (λ a, Sql.eq_nullable (MenuItemOptionGroups.item_id a) (Some itemId)))).

(** The body of the loop over the categories in [clearMenuData]. *)
Definition clearCategory (categoryId : Z) : M unit :=
  let* items :=
    d1_query (λ s,
      row_id <$> table_select (λ i, MenuItems.category_id i = categoryId)
                   (menu_items s)) in
  let* _ := for_each items (λ _ itemId, clearItem itemId) tt in
  d1_run (Sql.delete_of
    (Sql.delete_items (λ i, MenuItems.category_id i = categoryId))).

Definition clearMenuData (menuId : Z) : M unit :=
  let* categories :=
    d1_query (λ s,
      row_id <$> table_select (λ c, MenuCategories.menu_id c = menuId)
                   (menu_categories s)) in
  let* _ := for_each categories (λ _ categoryId, clearCategory categoryId) tt in
  d1_run (Sql.delete_of
    (Sql.delete_categories (λ c, MenuCategories.menu_id c = menuId))).

(** The [UPDATE menu_option_groups SET ...] of [processOptionGroup]. *)
Definition updateGroupRow (group : MenuOptionGroup.t)
    (r : MenuOptionGroups.row) : MenuOptionGroups.row :=
  {| MenuOptionGroups.id := MenuOptionGroups.id r;
     MenuOptionGroups.gloriafood_id := MenuOptionGroups.gloriafood_id r;
     MenuOptionGroups.name := MenuOptionGroup.name group;
     MenuOptionGroups.required := Js.flag (MenuOptionGroup.required group);
     MenuOptionGroups.allow_quantity := Js.flag (MenuOptionGroup.allow_quantity group);
     MenuOptionGroups.force_min := MenuOptionGroup.force_min group;
     MenuOptionGroups.force_max := MenuOptionGroup.force_max group;
     MenuOptionGroups.created_at := MenuOptionGroups.created_at r |}.

(** The row of the [INSERT INTO menu_option_groups] of
    [processOptionGroup]. *)
Definition newGroupRow (group : MenuOptionGroup.t) (now id : Z)
    : MenuOptionGroups.row :=
  {| MenuOptionGroups.id := id;
     MenuOptionGroups.gloriafood_id := MenuOptionGroup.id group;
     MenuOptionGroups.name := MenuOptionGroup.name group;
     MenuOptionGroups.required := Js.flag (MenuOptionGroup.required group);
     MenuOptionGroups.allow_quantity := Js.flag (MenuOptionGroup.allow_quantity group);
     MenuOptionGroups.force_min := MenuOptionGroup.force_min group;
     MenuOptionGroups.force_max := MenuOptionGroup.force_max group;
     MenuOptionGroups.created_at := now |}.

(** The row of the [INSERT INTO menu_options] of [processOptionGroup]. *)
Definition newOptionRow (groupId : Z) (option : MenuOption.t) (sortOrder id : Z)
    : MenuOptions.row :=
  {| MenuOptions.id := id;
     MenuOptions.option_group_id := groupId;
     MenuOptions.gloriafood_id := MenuOption.id option;
     MenuOptions.name := MenuOption.name option;
     MenuOptions.price := MenuOption.price option;
     MenuOptions.is_default := Js.flag (MenuOption.default option);
     MenuOptions.kitchen_internal_name :=
       Js.str_or_null (MenuOption.extras_kitchen_internal_name option);
     MenuOptions.sort_order := sortOrder |}.

Definition processOptionGroup (group : MenuOptionGroup.t) (stats : Stats.t)
    (itemId sizeId : option Z) : M Stats.t :=
  let* existing :=
    d1_query (λ s,
      table_first
        (λ r, MenuOptionGroups.gloriafood_id r = MenuOptionGroup.id group)
        (menu_option_groups s)) in
  let* (groupId, stats) :=
    match existing with
    | Some ex =>
        let groupId := MenuOptionGroups.id ex in
        let* _ :=
          d1_run (Sql.update menu_option_groups with_menu_option_groups
                    (λ r, MenuOptionGroups.id r = groupId)
                    (λ _, updateGroupRow group)) in
        ret (groupId, stats)
    | None =>
        let* groupId :=
          d1_run (Sql.insert_menu_option_group (newGroupRow group)) in
        ret (groupId, Stats.incr_optionGroups stats)
    end in
  let* _ :=
    if Js.num_falsy (Js.num_or_else itemId sizeId) then ret tt
    else
      let* _ :=
        d1_run (Sql.insert_or_ignore_menu_item_option_group (λ _ id,
          {| MenuItemOptionGroups.id := id;
             MenuItemOptionGroups.item_id := itemId;
             MenuItemOptionGroups.size_id := sizeId;
             MenuItemOptionGroups.option_group_id := groupId |})) in
      ret tt in
  match existing with
  | Some _ => ret stats
  | None =>
      let* (stats, _) :=
        for_each (MenuOptionGroup.options group)
          (λ '(stats, optionSortOrder) option,
             let* _ :=
               d1_run (Sql.insert_menu_option (λ _ id,
                 newOptionRow groupId option optionSortOrder id)) in
             ret (Stats.incr_options stats, optionSortOrder + 1))
          (stats, 0) in
      ret stats
  end.

(** [if (groups) for (const group of groups) processOptionGroup(...)] *)
Definition processGroups (groups : option (list MenuOptionGroup.t))
    (stats : Stats.t) (itemId sizeId : option Z) : M Stats.t :=
  match groups with
  | Some groups =>
      for_each groups (λ stats group, processOptionGroup group stats itemId sizeId)
        stats
  | None => ret stats
  end.

Definition processSize (itemId : Z) (size : MenuItemSize.t) (stats : Stats.t)
    (sortOrder : option Z) : M Stats.t :=
  let* sizeId :=
    d1_run (Sql.insert_menu_item_size (λ _ id,
      {| MenuItemSizes.id := id;
         MenuItemSizes.item_id := itemId;
         MenuItemSizes.gloriafood_id := MenuItemSize.id size;
         MenuItemSizes.name := MenuItemSize.name size;
         MenuItemSizes.price := MenuItemSize.price size;
         MenuItemSizes.is_default := Js.flag (MenuItemSize.default size);
         MenuItemSizes.sort_order := or_default_0 sortOrder |})) in
  let stats := Stats.incr_sizes stats in
  processGroups (MenuItemSize.groups size) stats None (Some sizeId).

Definition processItem (categoryId : Z) (item : MenuItem.t) (stats : Stats.t)
    (sortOrder : option Z) : M Stats.t :=
  let extras := default MenuItemExtras.empty (MenuItem.extras item) in
  let* itemId :=
    d1_run (Sql.insert_menu_item (λ now id,
      {| MenuItems.id := id;
         MenuItems.category_id := categoryId;
         MenuItems.gloriafood_id := MenuItem.id item;
         MenuItems.name := MenuItem.name item;
         MenuItems.description := Js.str_or_null (MenuItem.description item);
         MenuItems.price := MenuItem.price item;
         MenuItems.active := Js.flag (MenuItem.active item);
         MenuItems.sort_order := or_default_0 sortOrder;
         MenuItems.kitchen_internal_name :=
           Js.str_or_null (MenuItemExtras.menu_item_kitchen_internal_name extras);
         MenuItems.order_types := MenuItemExtras.menu_item_order_types extras;
         MenuItems.tags := MenuItem.tags item;
         MenuItems.allergens := MenuItemExtras.menu_item_allergens_values extras;
         MenuItems.nutritional_values :=
           MenuItemExtras.menu_item_nutritional_values extras;
         MenuItems.image_url := None;
         MenuItems.created_at := now;
         MenuItems.updated_at := now |})) in
  let stats := Stats.incr_items stats in
  let* stats :=
    match MenuItem.sizes item with
    | Some sizes =>
        let* (stats, _) :=
          for_each sizes
            (λ '(stats, sizeSortOrder) size,
               let* stats := processSize itemId size stats (Some sizeSortOrder) in
               ret (stats, sizeSortOrder + 1))
            (stats, 0) in
        ret stats
    | None => ret stats
    end in
  processGroups (MenuItem.groups item) stats (Some itemId) None.

Definition processCategory (menuId : Z) (category : MenuCategory.t)
    (stats : Stats.t) (sortOrder : option Z) : M Stats.t :=
  let* categoryId :=
    d1_run (Sql.insert_menu_category (λ now id,
      {| MenuCategories.id := id;
         MenuCategories.menu_id := menuId;
         MenuCategories.gloriafood_id := MenuCategory.id category;
         MenuCategories.name := MenuCategory.name category;
         MenuCategories.description :=
           Js.str_or_null (MenuCategory.description category);
         MenuCategories.active := Js.flag (MenuCategory.active category);
         MenuCategories.sort_order := or_default_0 sortOrder;
         MenuCategories.created_at := now |})) in
  let stats := Stats.incr_categories stats in
  let* (stats, _) :=
    for_each (MenuCategory.items category)
      (λ '(stats, itemSortOrder) item,
         let* stats := processItem categoryId item stats (Some itemSortOrder) in
         ret (stats, itemSortOrder + 1))
      (stats, 0) in
  processGroups (MenuCategory.groups category) stats None None.

(** The loop over the categories of the snapshot in [syncMenu]:
    [processCategory] is called without its fourth argument. *)
Definition processCategories (menuId : Z) (categories : list MenuCategory.t)
    (stats : Stats.t) : M Stats.t :=
  for_each categories
    (λ stats category, processCategory menuId category stats None) stats.

(** The [try] block of [syncMenu] after the fetch. *)
Definition syncMenu_store (menuData : GloriaFoodMenuResponse.t) : M SyncResult :=
  let* menuId := getOrCreateMenu menuData in
  let stats := Stats.zero in
  let* _ := clearMenuData menuId in
  let* stats :=
    processCategories menuId (GloriaFoodMenuResponse.categories menuData) stats in
  let* _ :=
    d1_run (Sql.update menus with_menus (λ r, Menus.id r = menuId)
      (λ now r,
         {| Menus.id := Menus.id r;
            Menus.gloriafood_id := Menus.gloriafood_id r;
            Menus.restaurant_id := Menus.restaurant_id r;
            Menus.currency := Menus.currency r;
            Menus.active := Menus.active r;
            Menus.synced_at := now |})) in
  let* _ := kv_put "menu:full" (DocSnapshot menuData) 3600 in
  let* _ := logEvent "menu_sync" (LogSyncStats stats) "success" None in
  ret {| success := true;
         message := "Menú sincronizado correctamente";
         stats := stats |}.

Definition syncMenu (remote : HttpResponse GloriaFoodMenuResponse.t) : M SyncResult :=
  try_catch
    (let* menuData := GloriaFoodClient.fetchMenu remote in
     syncMenu_store menuData)
    (λ error,
       let errorMessage := error_message error in
       let* _ :=
         logEvent "menu_sync" (LogSyncError errorMessage) "error"
           (Some errorMessage) in
       throw error).

(** The join of [getOptionGroupsForItem]: one group row per association
    row of the item, in the order of the associations. *)
Definition getOptionGroupsForItem (itemId : Z) : M (list FullMenu.Group) :=
  let* relations :=
    d1_query (λ s,
      a ← table_select
            (λ a, Sql.eq_nullable (MenuItemOptionGroups.item_id a) (Some itemId))
            (menu_item_option_groups s);
      table_select
        (λ g, MenuOptionGroups.id g = MenuItemOptionGroups.option_group_id a)
        (menu_option_groups s)) in
  map_all
    (λ group,
       let* options :=
         d1_query (λ s,
           order_by MenuOptions.sort_order
             (table_select
                (λ o, MenuOptions.option_group_id o = MenuOptionGroups.id group)
                (menu_options s))) in
       ret {| FullMenu.group := group; FullMenu.options := options |})
    relations.

(** The part of [getFullMenu] that reads the tree from the store. *)
Definition buildFullMenu (menu : Menus.row) : M FullMenu.t :=
  let* categories :=
    d1_query (λ s,
      order_by MenuCategories.sort_order
        (table_select (λ c, MenuCategories.menu_id c = Menus.id menu)
           (menu_categories s))) in
  let* categories :=
    map_all
      (λ cat,
         let* items :=
           d1_query (λ s,
             order_by MenuItems.sort_order
               (table_select
                  (λ i, MenuItems.category_id i = MenuCategories.id cat)
                  (menu_items s))) in
         let* items :=
           map_all
             (λ item,
                let* sizes :=
                  d1_query (λ s,
                    order_by MenuItemSizes.sort_order
                      (table_select
                         (λ z, MenuItemSizes.item_id z = MenuItems.id item)
                         (menu_item_sizes s))) in
                let* groups := getOptionGroupsForItem (MenuItems.id item) in
                ret {| FullMenu.item := item;
                       FullMenu.tags := default [] (MenuItems.tags item);
                       FullMenu.order_types := default [] (MenuItems.order_types item);
                       FullMenu.allergens := default [] (MenuItems.allergens item);
                       FullMenu.nutritional_values :=
                         default [] (MenuItems.nutritional_values item);
                       FullMenu.sizes := sizes;
                       FullMenu.groups := groups |})
             items in
         ret {| FullMenu.category := cat; FullMenu.items := items |})
      categories in
  ret {| FullMenu.menu := menu; FullMenu.categories := categories |}.

(** [null] is [None]. *)
Definition getFullMenu : M (option CacheDoc) :=
  let* cached := kv_get "menu:full" in
  match cached with
  | Some doc => ret (Some doc)
  | None =>
      let* menu := d1_query (λ s, head (rows (menus s))) in
      match menu with
      | None => ret None
      | Some menu =>
          let* fullMenu := buildFullMenu menu in
          let* _ := kv_put "menu:full" (DocFullMenu fullMenu) 3600 in
          ret (Some (DocFullMenu fullMenu))
      end
  end.

End MenuService.

(** ** The push route (index.ts) *)

(** [Reply200 n data] is the reply [{ success: true, message: `Processed
    ${n} orders`, data }]; the two others are [{ success: false, error }]
    with status 401 and 500. *)
Inductive HttpReply :=
| Reply200 (processed : nat) (data : list OrderResult.t)
| Reply401
| Reply500 (error : string).

Module Routes.

(** The loop over [payload.orders], shared by the push and pull routes. *)
Definition processOrders (orders : list GloriaFoodOrder.t) : M (list OrderResult.t) :=
  for_each orders
    (λ results order,
       let* result := OrdersService.processOrder order in
       ret (results ++ [{| OrderResult.gloriafood_id := GloriaFoodOrder.id order;
                           OrderResult.internal_id := OrdersService.orderId result;
                           OrderResult.is_new := OrdersService.isNew result |}])%list)
    [].

Definition logWebhook (payload : LogPayload) (status : string)
    (errorMessage : option string) : M unit :=
  let* _ :=
    d1_run (Sql.insert_webhook_log (λ now id,
      {| WebhookLogs.id := id;
         WebhookLogs.event_type := "order_received";
         WebhookLogs.payload := payload;
         WebhookLogs.status := status;
         WebhookLogs.error_message := errorMessage;
         WebhookLogs.created_at := now |})) in
  ret tt.

(** [POST /webhook/orders].  [masterKey] is [env.GLORIAFOOD_MASTER_KEY],
    [authHeader] the Authorization header and [body] the parsed body
    ([None] when [c.req.json()] throws). *)
Definition webhookOrders (masterKey authHeader : option string)
    (body : option GloriaFoodOrderResponse.t) : M HttpReply :=
  if negb (GloriaFoodClient.validateWebhookRequest authHeader masterKey) then
    let* _ := logWebhook (LogText "unauthorized") "error" (Some "Invalid master key") in
    ret Reply401
  else
    try_catch
      (let* payload :=
         match body with
         | Some payload => ret payload
         | None => throw InvalidJson
         end in
       let* results := processOrders (GloriaFoodOrderResponse.orders payload) in
       let* _ :=
         logWebhook (LogOrders (GloriaFoodOrderResponse.count payload) results)
           "success" None in
       ret (Reply200 (length results) results))
      (λ error,
         let errorMessage := error_message error in
         let* _ := logWebhook (LogText "error") "error" (Some errorMessage) in
         ret (Reply500 errorMessage)).

End Routes.

(** ** Sample payloads and worlds *)

Module Sample.

Definition world (fk : bool) (outcomes : list bool) : World :=
  {| db := empty_store fk; cache := ∅; faults := outcomes; clock := 1000 |}.

(** The world after running [m], and what [m] returned. *)
Definition after {A} (m : M A) (w : World) : World := (m w).1.
Definition outcome {A} (m : M A) (w : World) : Outcome A := (m w).2.

Definition burger : OrderItem.t :=
  {| OrderItem.id := 1; OrderItem.name := "Burger";
     OrderItem.total_item_price := 1250; OrderItem.price := 1250;
     OrderItem.quantity := 1; OrderItem.instructions := None;
     OrderItem.type := item_; OrderItem.type_id := None;
     OrderItem.tax_rate := None; OrderItem.tax_value := None;
     OrderItem.tax_type := None; OrderItem.parent_id := None;
     OrderItem.item_discount := None; OrderItem.cart_discount := None;
     OrderItem.cart_discount_rate := None;
     OrderItem.kitchen_internal_name := None; OrderItem.coupon := None;
     OrderItem.options := None |}.

(** Order 555 of restaurant ["rk"], for client [client] and POS system
    [pos]; the contact fields of the client are the four last arguments. *)
Definition order (pos client : option Z) (email : option string)
    (consent : option bool) : GloriaFoodOrder.t :=
  {| GloriaFoodOrder.id := 555; GloriaFoodOrder.status := "accepted";
     GloriaFoodOrder.type := pickup; GloriaFoodOrder.source := None;
     GloriaFoodOrder.restaurant_key := "rk"; GloriaFoodOrder.restaurant_id := 1;
     GloriaFoodOrder.restaurant_name := "Diner";
     GloriaFoodOrder.restaurant_timezone := None;
     GloriaFoodOrder.pos_system_id := pos; GloriaFoodOrder.currency := "USD";
     GloriaFoodOrder.total_price := 1250; GloriaFoodOrder.sub_total_price := 1250;
     GloriaFoodOrder.tax_value := 0; GloriaFoodOrder.tax_type := GROSS;
     GloriaFoodOrder.tax_name := None; GloriaFoodOrder.tax_list := None;
     GloriaFoodOrder.coupons := None; GloriaFoodOrder.instructions := None;
     GloriaFoodOrder.fulfill_at := "2024-01-01T12:00:00Z";
     GloriaFoodOrder.accepted_at := "2024-01-01T11:30:00Z";
     GloriaFoodOrder.for_later := None; GloriaFoodOrder.pin_skipped := None;
     GloriaFoodOrder.pickup_payment := Some CASH;
     GloriaFoodOrder.delivery_payment := None; GloriaFoodOrder.payment := None;
     GloriaFoodOrder.items := [burger];
     GloriaFoodOrder.client_id := client; GloriaFoodOrder.user_id := None;
     GloriaFoodOrder.client_first_name := None;
     GloriaFoodOrder.client_last_name := None;
     GloriaFoodOrder.client_email := email;
     GloriaFoodOrder.client_phone := None;
     GloriaFoodOrder.client_address := None;
     GloriaFoodOrder.client_address_parts := None;
     GloriaFoodOrder.client_order_count := None;
     GloriaFoodOrder.client_marketing_consent := consent;
     GloriaFoodOrder.latitude := None; GloriaFoodOrder.longitude := None;
     GloriaFoodOrder.delivery_zone_name := None;
     GloriaFoodOrder.outside_delivery_area := None;
     GloriaFoodOrder.billing_details := None |}.

(** The scenario of the specification: order 555 on POS system 0. *)
Definition order555 : GloriaFoodOrder.t := order (Some 0) None None None.

Definition toppings : MenuOptionGroup.t :=
  {| MenuOptionGroup.id := 9; MenuOptionGroup.name := "Toppings";
     MenuOptionGroup.required := false; MenuOptionGroup.allow_quantity := true;
     MenuOptionGroup.force_min := 0; MenuOptionGroup.force_max := 2;
     MenuOptionGroup.options :=
       [ {| MenuOption.id := 91; MenuOption.name := "Cheese"; MenuOption.price := 100;
            MenuOption.default := false;
            MenuOption.extras_kitchen_internal_name := None |};
         {| MenuOption.id := 92; MenuOption.name := "Bacon"; MenuOption.price := 150;
            MenuOption.default := false;
            MenuOption.extras_kitchen_internal_name := None |} ] |}.

Definition menuItem (id : Z) (name : string)
    (sizes : option (list MenuItemSize.t)) : MenuItem.t :=
  {| MenuItem.id := id; MenuItem.name := name; MenuItem.description := None;
     MenuItem.price := 900; MenuItem.active := true; MenuItem.tags := None;
     MenuItem.sizes := sizes; MenuItem.groups := Some [toppings];
     MenuItem.extras := None |}.

Definition category (id : Z) (name : string) (items : list MenuItem.t)
    : MenuCategory.t :=
  {| MenuCategory.id := id; MenuCategory.name := name;
     MenuCategory.description := None; MenuCategory.active := true;
     MenuCategory.items := items; MenuCategory.groups := None |}.

Definition large : MenuItemSize.t :=
  {| MenuItemSize.id := 31; MenuItemSize.name := "Large"; MenuItemSize.price := 1100;
     MenuItemSize.default := false; MenuItemSize.groups := Some [toppings] |}.

Definition snapshot (categories : list MenuCategory.t) : GloriaFoodMenuResponse.t :=
  {| GloriaFoodMenuResponse.id := 70; GloriaFoodMenuResponse.restaurant_id := 1;
     GloriaFoodMenuResponse.active := true; GloriaFoodMenuResponse.currency := "USD";
     GloriaFoodMenuResponse.categories := categories |}.


(** Two categories; the first has two items, one of them with a size. *)
Definition menu_two_categories : GloriaFoodMenuResponse.t :=
  snapshot [category 10 "Mains" [menuItem 21 "Burger" (Some [large]);
                                 menuItem 22 "Wrap" None];
            category 11 "Sides" [menuItem 23 "Fries" None]].

(** A world whose store holds restaurant 1 (created by order 555). *)
Definition world_with_restaurant (fk : bool) (outcomes : list bool) : World :=
  with_faults outcomes (after (OrdersService.processOrder order555) (world fk [])).

End Sample.

(** * Vocabulary of the properties *)

Local Open Scope list_scope.
Local Open Scope Z_scope.

(** ** Relations between the world before and after a call *)

(** A relation that can be followed along a computation: it holds
    between a world and itself, composes, and holds across the
    consumption of one pending outcome of the backend. *)
Class Stable (R : World → World → Prop) := {
  stable_refl : ∀ w, R w w;
  stable_trans : ∀ a b c, R a b → R b c → R a c;
  stable_tick : ∀ w b fs, faults w = b :: fs → R w (with_faults fs w) }.

(** [respects R m]: the world after [m], whether [m] returns or throws,
    is related by [R] to the world before. *)
Definition respects {A} (R : World → World → Prop) (m : M A) : Prop :=
  ∀ w, R w (m w).1.

(** The clock does not move during a call. *)
Definition same_clock (w w' : World) : Prop := clock w' = clock w.

(** The row written to the event log for a rejected push. *)
Definition unauthorized_log (w : World) : WebhookLogs.row :=
  {| WebhookLogs.id := next_id (webhook_logs (db w));
     WebhookLogs.event_type := "order_received";
     WebhookLogs.payload := LogText "unauthorized";
     WebhookLogs.status := "error";
     WebhookLogs.error_message := Some "Invalid master key";
     WebhookLogs.created_at := clock w |}.

(** The cache is left alone. *)
Definition same_cache (w w' : World) : Prop := cache w' = cache w.


(** [f] is a projection of the store; [keeps f] relates two worlds that
    agree on it. *)
Definition keeps {A} (f : Store → A) (w w' : World) : Prop := f (db w') = f (db w).

(** Everything but the four tables of the menu subtree. *)
Definition outside_menu_subtree (s : Store) :=
  (restaurants s, clients s, client_addresses s, orders s, order_items s,
   order_item_options s, order_coupons s, order_taxes s, billing_details s,
   menus s, menu_option_groups s, menu_options s, webhook_logs s).

(** ** The subtree of a menu *)

(** The subtree of menu [menuId] in the store [s]: the keys of its
    categories, of the items of these categories and of the sizes of
    these items. *)
Definition scope_categories (menuId : Z) (s : Store) : list Z :=
  row_id <$> table_select (λ c, MenuCategories.menu_id c = menuId) (menu_categories s).
Definition scope_items (menuId : Z) (s : Store) : list Z :=
  row_id <$> table_select (λ i, MenuItems.category_id i ∈ scope_categories menuId s)
               (menu_items s).
Definition scope_sizes (menuId : Z) (s : Store) : list Z :=
  row_id <$> table_select (λ z, MenuItemSizes.item_id z ∈ scope_items menuId s)
               (menu_item_sizes s).
(** An association row belongs to the menu through its item or its size. *)
Definition scoped_association (menuId : Z) (s : Store)
    (a : MenuItemOptionGroups.row) : Prop :=
  refers (MenuItemOptionGroups.item_id a) (scope_items menuId s)
  ∨ refers (MenuItemOptionGroups.size_id a) (scope_sizes menuId s).

(** [untouched_outside menuId s s']: every row of the four subtree tables
    of [s] that lies outside the subtree of [menuId] is still in [s'],
    and [s'] has no row that [s] has not. *)
Record untouched_outside (menuId : Z) (s s' : Store) : Prop := {
  kept_categories : ∀ c, c ∈ rows (menu_categories s) →
    MenuCategories.menu_id c ≠ menuId → c ∈ rows (menu_categories s');
  kept_items : ∀ i, i ∈ rows (menu_items s) →
    MenuItems.category_id i ∉ scope_categories menuId s → i ∈ rows (menu_items s');
  kept_sizes : ∀ z, z ∈ rows (menu_item_sizes s) →
    MenuItemSizes.item_id z ∉ scope_items menuId s → z ∈ rows (menu_item_sizes s');
  kept_associations : ∀ a, a ∈ rows (menu_item_option_groups s) →
    ¬ scoped_association menuId s a → a ∈ rows (menu_item_option_groups s');
  no_new_categories : rows (menu_categories s') ⊆ rows (menu_categories s);
  no_new_items : rows (menu_items s') ⊆ rows (menu_items s);
  no_new_sizes : rows (menu_item_sizes s') ⊆ rows (menu_item_sizes s);
  no_new_associations :
    rows (menu_item_option_groups s') ⊆ rows (menu_item_option_groups s) }.

(** The invariant of a clear phase of menu [menuId] started in the store
    [s0]. *)
Definition clearing (menuId : Z) (s0 : Store) (w : World) : Prop :=
  untouched_outside menuId s0 (db w).

(** Whatever the snapshot, a category row inserted by [processCategories]
    has [sort_order] 0. *)
Definition categories_sorted_0 (w w' : World) : Prop :=
  ∀ c, c ∈ rows (menu_categories (db w')) →
       c ∈ rows (menu_categories (db w)) ∨ MenuCategories.sort_order c = 0.

(** ** Orders *)



(** Primary keys are distinct and below the AUTOINCREMENT counter. *)
Definition table_wf {R} `{RowId R} (t : Table R) : Prop :=
  NoDup (table_ids t) ∧ ∀ i, i ∈ table_ids t → i < next_id t.

(** [grows f]: the table [f] only gets new rows, after the old ones. *)
Definition grows {R} (f : Store → Table R) (w w' : World) : Prop :=
  rows (f (db w)) `prefix_of` rows (f (db w')).

(** [wf_kept f]: the table [f], if well formed, stays so. *)
Definition wf_kept {R} `{RowId R} (f : Store → Table R) (w w' : World) : Prop :=
  table_wf (f (db w)) → table_wf (f (db w')).

(** No row of the order tables is removed or changes place: each table
    only gets new rows after the old ones ([clients] rows may be rewritten
    in place, their keys stay). *)
Record nothing_removed (w w' : World) : Prop := {
  nr_restaurants : rows (restaurants (db w)) `prefix_of` rows (restaurants (db w'));
  nr_clients : table_ids (clients (db w)) `prefix_of` table_ids (clients (db w'));
  nr_client_addresses :
    rows (client_addresses (db w)) `prefix_of` rows (client_addresses (db w'));
  nr_orders : rows (orders (db w)) `prefix_of` rows (orders (db w'));
  nr_order_items : rows (order_items (db w)) `prefix_of` rows (order_items (db w'));
  nr_order_item_options :
    rows (order_item_options (db w)) `prefix_of` rows (order_item_options (db w'));
  nr_order_coupons :
    rows (order_coupons (db w)) `prefix_of` rows (order_coupons (db w'));
  nr_order_taxes : rows (order_taxes (db w)) `prefix_of` rows (order_taxes (db w'));
  nr_billing_details :
    rows (billing_details (db w)) `prefix_of` rows (billing_details (db w')) }.

(** ** The rebuild of a menu *)


(** [fresh_categories]: the category rows of the later world are rows of
    the earlier one or have a key that the earlier counter had not
    reached. *)
Definition fresh_categories (w w' : World) : Prop :=
  next_id (menu_categories (db w)) ≤ next_id (menu_categories (db w'))
  ∧ ∀ c, c ∈ rows (menu_categories (db w')) →
      c ∈ rows (menu_categories (db w))
      ∨ next_id (menu_categories (db w)) ≤ MenuCategories.id c.


(** The rows that the option loop of [processOptionGroup] inserts for a
    new group: sort orders from [sortOrder] on, keys from [id] on. *)
Fixpoint option_rows (groupId sortOrder id : Z) (options : list MenuOption.t)
    : list MenuOptions.row :=
  match options with
  | [] => []
  | option :: options =>
      MenuService.newOptionRow groupId option sortOrder id
      :: option_rows groupId (sortOrder + 1) (id + 1) options
  end.

(** The two tables that hold the option groups. *)
Definition group_tables : Type := Table MenuOptionGroups.row * Table MenuOptions.row.

(** The group row stored under the external id [e]. *)
Definition group_with (e : Z) (G : Table MenuOptionGroups.row)
    : option MenuOptionGroups.row :=
  table_first (λ r, MenuOptionGroups.gloriafood_id r = e) G.

(** What one call of [processOptionGroup] does to the two tables. *)
Definition visit (now : Z) (σ : group_tables) (g : MenuOptionGroup.t) : group_tables :=
  match group_with (MenuOptionGroup.id g) σ.1 with
  | Some ex =>
      (table_update (λ r, MenuOptionGroups.id r = MenuOptionGroups.id ex)
         (MenuService.updateGroupRow g) σ.1,
       σ.2)
  | None =>
      ({| rows := rows σ.1 ++ [MenuService.newGroupRow g now (next_id σ.1)];
          next_id := next_id σ.1 + 1 |},
       {| rows := rows σ.2
                  ++ option_rows (next_id σ.1) 0 (next_id σ.2) (MenuOptionGroup.options g);
          next_id := next_id σ.2 + Z.of_nat (length (MenuOptionGroup.options g)) |})
  end.





(** Keys are distinct and below the counter, and no two rows have the
    same external id. *)
Definition groups_ok (G : Table MenuOptionGroups.row) : Prop :=
  table_wf G ∧ NoDup (MenuOptionGroups.gloriafood_id <$> rows G).




(** ** The invariant of the store

    What the theorems below assume of the store they start from holds of
    the empty store and is kept by every call, whether it returns or
    throws. *)
Record store_ok (s : Store) : Prop := {
  ok_orders : table_wf (orders s);
  ok_categories : table_wf (menu_categories s);
  ok_groups : groups_ok (menu_option_groups s);
  ok_associations : table_wf (menu_item_option_groups s);
  ok_items : 0 < next_id (menu_items s);
  ok_sizes : 0 < next_id (menu_item_sizes s) }.

Definition ok_kept (w w' : World) : Prop := store_ok (db w) → store_ok (db w').



(** * Properties *)

(** ** The monad *)

Create HintDb services.
#[global] Hint Unfold Sample.after Sample.outcome : services.





Lemma backend_healthy {A} (op : M A) w : faults w = [] → backend op w = op w.
Proof. unfold backend. intros ->. reflexivity. Qed.

(** What a backend call does, whatever the pending outcomes are: it
    either fails or runs on a world that differs by its list of outcomes
    only. *)
Lemma backend_inv {A} (op : M A) w w' r :
  backend op w = (w', r) →
  (∃ fs, w' = with_faults fs w ∧ r = Thrown BackendUnavailable)
  ∨ (∃ fs, op (with_faults fs w) = (w', r)).
Proof.
  unfold backend. destruct w as [d c f t]; simpl.
  destruct f as [|[] fs]; intros H.
  - right. exists []. exact H.
  - left. exists fs. split; congruence.
  - right. exists fs. exact H.
Qed.

(** ** Relations that every step of a computation respects

    Frame properties and invariants are [Stable] relations; [respects]
    is proved by following the computation along its combinators. *)

Section respects.
Context (R : World → World → Prop) `{!Stable R}.

Lemma respects_ret {A} (a : A) : respects R (ret a).
Proof. intros w. apply stable_refl. Qed.

Lemma respects_throw {A} e : respects R (@throw A e).
Proof. intros w. apply stable_refl. Qed.

Lemma respects_bind {A B} (m : M A) (k : A → M B) :
  respects R m → (∀ a, respects R (k a)) → respects R (bind m k).
Proof.
  intros Hm Hk w. unfold bind. specialize (Hm w).
  destruct (m w) as [w1 [a|e]]; simpl in *; [|done].
  eapply stable_trans; [exact Hm | apply Hk].
Qed.

Lemma respects_try_catch {A} (m : M A) h :
  respects R m → (∀ e, respects R (h e)) → respects R (try_catch m h).
Proof.
  intros Hm Hh w. unfold try_catch. specialize (Hm w).
  destruct (m w) as [w1 [a|e]]; simpl in *; [done|].
  eapply stable_trans; [exact Hm | apply Hh].
Qed.

Lemma respects_for_each {A S} (l : list A) (body : S → A → M S) s :
  (∀ s x, respects R (body s x)) → respects R (for_each l body s).
Proof.
  intros Hb. revert s. induction l as [|x l IH]; intros s; simpl.
  - apply respects_ret.
  - apply respects_bind; [apply Hb | intros s'; apply IH].
Qed.

Lemma respects_map_all {A B} (f : A → M B) (l : list A) :
  (∀ x, respects R (f x)) → respects R (map_all f l).
Proof.
  intros Hf. induction l as [|x l IH]; simpl.
  - apply respects_ret.
  - apply respects_bind; [apply Hf | intros y].
    apply respects_bind; [apply IH | intros ys; apply respects_ret].
Qed.

Lemma respects_backend {A} (op : M A) : respects R op → respects R (backend op).
Proof.
  intros Hop w. unfold backend.
  destruct (faults w) as [|[] fs] eqn:Hf.
  - apply Hop.
  - simpl. eapply stable_tick, Hf.
  - eapply stable_trans; [eapply stable_tick, Hf | apply Hop].
Qed.

(** A query changes nothing. *)
Lemma respects_d1_query {A} (q : Store → A) : respects R (d1_query q).
Proof. apply respects_backend. intros w. apply stable_refl. Qed.

(** A statement respects [R] when its effect on the store does. *)
Lemma respects_d1_run {A} (stmt : Sql.statement A) :
  (∀ w s' a, stmt (clock w) (db w) = Returned (s', a) → R w (with_db s' w)) →
  respects R (d1_run stmt).
Proof.
  intros Hs. apply respects_backend. intros w.
  destruct (stmt (clock w) (db w)) as [[s' a]|e] eqn:E; simpl.
  - eapply Hs, E.
  - apply stable_refl.
Qed.

Lemma respects_kv_get key : respects R (kv_get key).
Proof. apply respects_backend. intros w. apply stable_refl. Qed.

Lemma respects_kv_put key doc ttl :
  (∀ w, R w (with_cache (<[key := (doc, clock w + ttl)]> (cache w)) w)) →
  respects R (kv_put key doc ttl).
Proof. intros H. apply respects_backend. intros w. apply H. Qed.

Lemma respects_kv_delete key :
  (∀ w, R w (with_cache (delete key (cache w)) w)) →
  respects R (kv_delete key).
Proof. intros H. apply respects_backend. intros w. apply H. Qed.
End respects.

(** One step of a proof of [respects]: split the computation along its
    combinators; [tac] closes the side conditions of the statements. *)
Ltac respects_step tac :=
  lazymatch goal with
  | |- respects _ (ret _) => apply respects_ret; try apply _
  | |- respects _ (throw _) => apply respects_throw; try apply _
  | |- respects _ (bind _ _) => apply respects_bind; [try apply _ | | intros ?]
  | |- respects _ (try_catch _ _) =>
      apply respects_try_catch; [try apply _ | | intros ?]
  | |- respects _ (for_each _ _ _) =>
      apply respects_for_each; [try apply _ | intros ? ?]
  | |- respects _ (map_all _ _) => apply respects_map_all; [try apply _ | intros ?]
  | |- respects _ (d1_query _) => apply respects_d1_query; try apply _
  | |- respects _ (kv_get _) => apply respects_kv_get; try apply _
  | |- respects _ (d1_run _) => apply respects_d1_run; [try apply _ | tac]
  | |- respects _ (kv_put _ _ _) => apply respects_kv_put; [try apply _ | tac]
  | |- respects _ (kv_delete _) => apply respects_kv_delete; [try apply _ | tac]
  | |- respects _ (match ?x with _ => _ end) => destruct x
  | |- respects _ (if ?x then _ else _) => destruct x
  | |- respects _ ((match ?x with _ => _ end) _) => destruct x
  end.

#[global] Hint Unfold
  OrdersService.saveClientAddress OrdersService.saveAddressIfDelivery
  OrdersService.getOrCreateClient OrdersService.getOrCreateRestaurant
  OrdersService.insertItemOption OrdersService.insertOrderItem
  OrdersService.insertOrderItems OrdersService.insertBillingDetails
  OrdersService.processOrder_lookup OrdersService.processOrder_details
  OrdersService.processOrder_insert OrdersService.processOrder_continue
  OrdersService.processOrder
  GloriaFoodClient.fetchMenu GloriaFoodClient.pollOrders
  MenuService.logEvent MenuService.getOrCreateMenu MenuService.clearItem
  MenuService.clearCategory MenuService.clearMenuData
  MenuService.processOptionGroup MenuService.processGroups
  MenuService.processSize MenuService.processItem MenuService.processCategory
  MenuService.processCategories MenuService.syncMenu_store MenuService.syncMenu
  MenuService.getOptionGroupsForItem MenuService.buildFullMenu
  MenuService.getFullMenu
  Routes.processOrders Routes.logWebhook Routes.webhookOrders : services.

Ltac respects_all tac := autounfold with services; repeat respects_step tac.

(** *** The clock does not move during a call *)

#[global] Instance same_clock_stable : Stable same_clock.
Proof.
  split; unfold same_clock.
  - done.
  - intros a b c H1 H2. congruence.
  - intros [] b fs _. reflexivity.
Qed.

Ltac by_computation := intros; hnf; try reflexivity.

Lemma processOrder_same_clock order :
  respects same_clock (OrdersService.processOrder order).
Proof. respects_all by_computation. Qed.

Lemma syncMenu_same_clock remote : respects same_clock (MenuService.syncMenu remote).
Proof. respects_all by_computation. Qed.

(** ** Push route: authentication *)

Lemma validateWebhookRequest_mismatch authHeader masterKey :
  authHeader = None ∨ masterKey = None ∨ authHeader ≠ masterKey →
  GloriaFoodClient.validateWebhookRequest authHeader masterKey = false.
Proof.
  unfold GloriaFoodClient.validateWebhookRequest.
  intros [-> | [-> | Hne]].
  - reflexivity.
  - destruct (Js.str_falsy authHeader); reflexivity.
  - destruct (Js.str_falsy authHeader || Js.str_falsy masterKey); [reflexivity|].
    apply bool_decide_eq_false. exact Hne.
Qed.

(** A request that passes the check carries the configured key. *)
Lemma validateWebhookRequest_true authHeader masterKey :
  GloriaFoodClient.validateWebhookRequest authHeader masterKey = true →
  authHeader = masterKey ∧ authHeader ≠ None ∧ authHeader ≠ Some "".
Proof.
  unfold GloriaFoodClient.validateWebhookRequest, Js.str_falsy, Js.str_or_null.
  destruct authHeader as [a|]; [|discriminate].
  destruct (decide (a = "")) as [->|Ha]; [discriminate|].
  destruct masterKey as [k|]; [|discriminate].
  destruct (decide (k = "")); [discriminate|]. simpl.
  intros H%bool_decide_eq_true. split_and!; congruence.
Qed.

(** C8.  A pushed batch whose Authorization header is not exactly the
    configured master key (the header or the key may be missing) is
    answered 401; the only change of the world is one row appended to
    [webhook_logs] recording the attempt: every other table and the cache
    are those of before, so no order, client or restaurant is stored.
    The backend is healthy ([faults w = []]), so the log insert itself
    goes through. *)
Theorem webhook_rejects_unauthorized masterKey authHeader body w :
  faults w = [] →
  authHeader = None ∨ masterKey = None ∨ authHeader ≠ masterKey →
  Routes.webhookOrders masterKey authHeader body w =
    (with_db
       (with_webhook_logs
          {| rows := rows (webhook_logs (db w)) ++ [unauthorized_log w];
             next_id := next_id (webhook_logs (db w)) + 1 |}
          (db w))
       w,
     Returned Reply401).
Proof.
  intros Hhealthy Hbad. unfold Routes.webhookOrders.
  rewrite (validateWebhookRequest_mismatch _ _ Hbad). simpl.
  unfold Routes.logWebhook, bind, d1_run. rewrite backend_healthy by done.
  unfold Sql.insert_webhook_log, Sql.insert, Sql.no_unique, Sql.no_parent, Sql.fk_holds.
  simpl. destruct (foreign_keys (db w)); reflexivity.
Qed.

(** The theorem at a batch carrying order 555 and a wrong key. *)
Lemma webhook_rejects_unauthorized_witness :
  let batch :=
    {| GloriaFoodOrderResponse.count := 1;
       GloriaFoodOrderResponse.orders := [Sample.order555] |} in
  let w := Sample.world true [] in
  (Routes.webhookOrders (Some "secret") (Some "guess") (Some batch) w).2
    = Returned Reply401
  ∧ rows (orders (db (Routes.webhookOrders (Some "secret") (Some "guess")
                        (Some batch) w).1)) = [].
Proof.
  intros batch w.
  rewrite (webhook_rejects_unauthorized (Some "secret") (Some "guess") (Some batch) w);
    [ split; reflexivity | reflexivity | right; right; discriminate ].
Defined.

(** ** What the primitives do to the store, the cache and the clock *)

Lemma d1_query_returned {A} (q : Store → A) w w' a :
  d1_query q w = (w', Returned a) →
  a = q (db w) ∧ db w' = db w ∧ cache w' = cache w ∧ clock w' = clock w.
Proof.
  intros [(fs & _ & ?) | (fs & H)]%backend_inv; [discriminate|].
  destruct w; simpl in H. injection H as <- <-. done.
Qed.

Lemma d1_query_thrown {A} (q : Store → A) w w' e :
  d1_query q w = (w', Thrown e) →
  e = BackendUnavailable ∧ db w' = db w ∧ cache w' = cache w ∧ clock w' = clock w.
Proof.
  intros [(fs & -> & H) | (fs & H)]%backend_inv; [|discriminate].
  injection H as ->. by destruct w.
Qed.

Lemma d1_run_returned {A} (stmt : Sql.statement A) w w' a :
  d1_run stmt w = (w', Returned a) →
  stmt (clock w) (db w) = Returned (db w', a)
  ∧ cache w' = cache w ∧ clock w' = clock w.
Proof.
  intros [(fs & _ & ?) | (fs & H)]%backend_inv; [discriminate|].
  destruct w as [d c f t]; simpl in *.
  destruct (stmt t d) as [[s' b]|e]; [|discriminate].
  injection H as <- <-. done.
Qed.

Lemma d1_run_thrown {A} (stmt : Sql.statement A) w w' e :
  d1_run stmt w = (w', Thrown e) →
  db w' = db w ∧ cache w' = cache w ∧ clock w' = clock w
  ∧ (e = BackendUnavailable ∨ stmt (clock w) (db w) = Thrown e).
Proof.
  intros [(fs & -> & H) | (fs & H)]%backend_inv.
  - injection H as ->. destruct w. split_and!; try done. by left.
  - destruct w as [d c f t]; simpl in *.
    destruct (stmt t d) as [[s' b]|e'] eqn:E; [discriminate|].
    injection H as <- <-. split_and!; try done. by right.
Qed.





(** *** Computations that leave the cache alone *)

#[global] Instance same_cache_stable : Stable same_cache.
Proof.
  split; unfold same_cache.
  - done.
  - intros a b c H1 H2. congruence.
  - intros [] b fs _. reflexivity.
Qed.


Lemma logEvent_same_clock eventType payload status errorMessage :
  respects same_clock (MenuService.logEvent eventType payload status errorMessage).
Proof. respects_all by_computation. Qed.




(** *** Reads on a healthy backend return and change nothing *)







(** ** Full-menu cache *)





(** ** Frames: the tables that a computation leaves alone *)

#[global] Instance keeps_stable {A} (f : Store → A) : Stable (keeps f).
Proof.
  split; unfold keeps.
  - done.
  - intros a b c H1 H2. congruence.
  - intros [] b fs _. reflexivity.
Qed.

Lemma insert_returned {R} get set unique parents (mk : Z → Z → R) now s s' i :
  Sql.insert get set unique parents mk now s = Returned (s', i) →
  i = next_id (get s)
  ∧ s' = set {| rows := rows (get s) ++ [mk now i]; next_id := i + 1 |} s
  ∧ unique s (mk now i) = None
  ∧ Sql.fk_holds s (parents s (mk now i)) = true.
Proof.
  unfold Sql.insert. destruct (unique s _) eqn:U; [discriminate|].
  destruct (Sql.fk_holds s _) eqn:F; [|discriminate].
  intros [= <- <-]. done.
Qed.

Lemma insert_thrown {R} get set unique parents (mk : Z → Z → R) now s e :
  Sql.insert get set unique parents mk now s = Thrown e →
  (∃ columns, e = UniqueConstraintFailed columns) ∨ e = ForeignKeyConstraintFailed.
Proof.
  unfold Sql.insert. destruct (unique s _) eqn:U.
  - intros [= <-]. eauto.
  - destruct (Sql.fk_holds s _); [discriminate|]. intros [= <-]. eauto.
Qed.

Create HintDb statements.
Create HintDb deletes.

#[global] Hint Unfold
  Sql.insert_restaurant Sql.insert_client Sql.insert_client_address
  Sql.insert_order Sql.insert_order_item Sql.insert_order_item_option
  Sql.insert_order_coupon Sql.insert_order_tax Sql.insert_billing_details
  Sql.insert_menu Sql.insert_menu_category Sql.insert_menu_item
  Sql.insert_menu_item_size Sql.insert_menu_option_group
  Sql.insert_or_ignore_menu_item_option_group Sql.insert_menu_option
  Sql.insert_webhook_log : statements.

#[global] Hint Unfold
  Sql.delete_of Sql.delete_associations Sql.delete_sizes Sql.delete_items
  Sql.delete_categories Sql.update : deletes.

(** The effect of one statement on a projection that does not cover the
    table it writes. *)
Ltac frame_statement :=
  let H := fresh in
  first
    [ solve [intros ?; hnf; reflexivity]
    | intros ? ? ? H; hnf;
      first
        [ autounfold with statements in H;
          apply insert_returned in H as (_ & -> & _); reflexivity
        | autounfold with deletes in H; injection H as <- _;
          repeat (simpl; case_match); reflexivity ] ].

Lemma clearMenuData_frame menuId :
  respects (keeps outside_menu_subtree) (MenuService.clearMenuData menuId).
Proof. respects_all frame_statement. Qed.

(** ** The clear phase deletes inside the menu only *)

Section clear_scope.
  Context (menuId : Z) (s0 : Store).

  (** The invariant of the clear phase started in [s0]. *)
#[local] Abbreviation in_clearing := (clearing menuId s0).

Lemma clearing_faults w fs : in_clearing w → in_clearing (with_faults fs w).
Proof. by destruct w. Qed.

Lemma in_scope_items i :
  i ∈ rows (menu_items s0) → MenuItems.category_id i ∈ scope_categories menuId s0 →
  MenuItems.id i ∈ scope_items menuId s0.
Proof.
  intros Hi Hc. unfold scope_items, table_select.
  apply list_elem_of_fmap. exists i. split; [done|].
  apply list_elem_of_filter. done.
Qed.

Lemma in_scope_sizes z :
  z ∈ rows (menu_item_sizes s0) → MenuItemSizes.item_id z ∈ scope_items menuId s0 →
  MenuItemSizes.id z ∈ scope_sizes menuId s0.
Proof.
  intros Hz Hi. unfold scope_sizes, table_select.
  apply list_elem_of_fmap. exists z. split; [done|].
  apply list_elem_of_filter. done.
Qed.

Lemma in_scope_categories c :
  c ∈ rows (menu_categories s0) → MenuCategories.menu_id c = menuId →
  MenuCategories.id c ∈ scope_categories menuId s0.
Proof.
  intros Hc Hm. unfold scope_categories, table_select.
  apply list_elem_of_fmap. exists c. split; [done|].
  apply list_elem_of_filter. done.
Qed.

  (** Deleting association rows of the subtree keeps the invariant. *)
Lemma clearing_delete_associations (P : MenuItemOptionGroups.row → Prop)
    `{∀ a, Decision (P a)} s :
  untouched_outside menuId s0 s →
  (∀ a, a ∈ rows (menu_item_option_groups s) → P a → scoped_association menuId s0 a) →
  untouched_outside menuId s0 (Sql.delete_associations P s).
Proof.
  intros [] HP. split; simpl; try done.
  - intros a Ha Hout. apply list_elem_of_filter. split; [|by auto].
    intros HPa. apply Hout, HP; auto.
  - etrans; [apply list_subseteq_filter | done].
Qed.

Lemma clearing_delete_sizes (P : MenuItemSizes.row → Prop) `{∀ z, Decision (P z)} s :
  untouched_outside menuId s0 s →
  (∀ z, z ∈ rows (menu_item_sizes s) → P z →
        MenuItemSizes.item_id z ∈ scope_items menuId s0) →
  untouched_outside menuId s0 (Sql.delete_sizes P s).
Proof.
  intros Hs HP. unfold Sql.delete_sizes.
  set (s1 := with_menu_item_sizes _ s).
  assert (H1 : untouched_outside menuId s0 s1).
  { destruct Hs. split; simpl; try done.
    - intros z Hz Hout. apply list_elem_of_filter. split; [|by auto].
      intros HPz. apply Hout, HP; auto.
    - etrans; [apply list_subseteq_filter | done]. }
  destruct (foreign_keys s1); [|done].
  apply clearing_delete_associations; [done|].
  intros a _ Ha. right.
  destruct (MenuItemOptionGroups.size_id a) as [i|]; [simpl in *|done].
  apply list_elem_of_fmap in Ha as (z & -> & Hz).
  apply list_elem_of_filter in Hz as [HPz Hz].
  apply in_scope_sizes; [by apply (no_new_sizes _ _ _ Hs) | by apply HP].
Qed.

Lemma clearing_delete_items (P : MenuItems.row → Prop) `{∀ i, Decision (P i)} s :
  untouched_outside menuId s0 s →
  (∀ i, i ∈ rows (menu_items s) → P i →
        MenuItems.category_id i ∈ scope_categories menuId s0) →
  untouched_outside menuId s0 (Sql.delete_items P s).
Proof.
  intros Hs HP. unfold Sql.delete_items.
  set (gone := row_id <$> table_select P (menu_items s)).
  assert (Hgone : ∀ i, i ∈ gone → i ∈ scope_items menuId s0).
  { intros i Hi. apply list_elem_of_fmap in Hi as (r & -> & Hr).
    apply list_elem_of_filter in Hr as [HPr Hr].
    apply in_scope_items; [by apply (no_new_items _ _ _ Hs) | by apply HP]. }
  set (s1 := with_menu_items _ s).
  assert (H1 : untouched_outside menuId s0 s1).
  { destruct Hs. split; simpl; try done.
    - intros i Hi Hout. apply list_elem_of_filter. split; [|by auto].
      intros HPi. apply Hout, HP; auto.
    - etrans; [apply list_subseteq_filter | done]. }
  destruct (foreign_keys s1); [|done].
  apply clearing_delete_associations.
  - apply clearing_delete_sizes; [done|]. intros z _ Hz. by apply Hgone.
  - intros a _ Ha. left.
    destruct (MenuItemOptionGroups.item_id a) as [i|]; [simpl in *|done].
    by apply Hgone.
Qed.

Lemma clearing_delete_categories s :
  untouched_outside menuId s0 s →
  untouched_outside menuId s0
    (Sql.delete_categories (λ c, MenuCategories.menu_id c = menuId) s).
Proof.
  intros Hs. unfold Sql.delete_categories.
  set (gone := row_id <$> table_select _ (menu_categories s)).
  assert (Hgone : ∀ c, c ∈ gone → c ∈ scope_categories menuId s0).
  { intros c Hc. apply list_elem_of_fmap in Hc as (r & -> & Hr).
    apply list_elem_of_filter in Hr as [HPr Hr].
    apply in_scope_categories; [by apply (no_new_categories _ _ _ Hs) | done]. }
  set (s1 := with_menu_categories _ s).
  assert (H1 : untouched_outside menuId s0 s1).
  { destruct Hs. split; simpl; try done.
    - intros c Hc Hout. apply list_elem_of_filter. split; [|by auto]. tauto.
    - etrans; [apply list_subseteq_filter | done]. }
  destruct (foreign_keys s1); [|done].
  apply clearing_delete_items; [done|]. intros i _ Hi. by apply Hgone.
Qed.

  (** *** The invariant along the computation *)

Lemma clearing_bind {A B} (m : M A) (k : A → M B) w :
  in_clearing (m w).1 → (∀ a v, in_clearing v → in_clearing (k a v).1) →
  in_clearing (bind m k w).1.
Proof.
  unfold bind. destruct (m w) as [w1 [a|e]]; simpl; [|done].
  intros H1 Hk. by apply Hk.
Qed.

  (** A query followed by a computation that uses its answer. *)
Lemma clearing_query {A B} (q : Store → A) (k : A → M B) w :
  in_clearing w →
  (∀ v, in_clearing v → db v = db w → in_clearing (k (q (db w)) v).1) →
  in_clearing (bind (d1_query q) k w).1.
Proof.
  intros Hw Hk. unfold bind.
  destruct (d1_query q w) as [w1 [a|e]] eqn:E; simpl.
  - apply d1_query_returned in E as (-> & Hdb & _).
    apply Hk; [|done]. unfold in_clearing. by rewrite Hdb.
  - apply d1_query_thrown in E as (_ & Hdb & _). unfold in_clearing. by rewrite Hdb.
Qed.

Lemma clearing_delete (f : Store → Store) w :
  in_clearing w → (∀ s, s = db w → untouched_outside menuId s0 (f s)) →
  in_clearing (d1_run (Sql.delete_of f) w).1.
Proof.
  intros Hw Hf.
  destruct (d1_run (Sql.delete_of f) w) as [w1 [a|e]] eqn:E; simpl.
  - apply d1_run_returned in E as (E & _). unfold Sql.delete_of in E.
    injection E as E. unfold in_clearing. rewrite <- E. by apply Hf.
  - apply d1_run_thrown in E as (Hdb & _). unfold in_clearing. by rewrite Hdb.
Qed.

Lemma clearing_for_each {A} (l : list A) (body : unit → A → M unit) w :
  in_clearing w →
  (∀ x v, x ∈ l → in_clearing v → in_clearing (body tt x v).1) →
  in_clearing (for_each l body tt w).1.
Proof.
  revert w. induction l as [|x l IH]; intros w Hw Hb; simpl; [done|].
  apply clearing_bind.
  - apply Hb; [left | done].
  - intros [] v Hv. apply IH; [done|]. intros y u Hy. apply Hb. by right.
Qed.

Lemma clearItem_clearing itemId w :
  in_clearing w → itemId ∈ scope_items menuId s0 →
  in_clearing (MenuService.clearItem itemId w).1.
Proof.
  intros Hw Hi. unfold MenuService.clearItem. apply clearing_bind.
  - apply clearing_delete; [done|]. intros s ->.
    apply clearing_delete_sizes; [done|]. by intros z _ ->.
  - intros _ v Hv. apply clearing_delete; [done|]. intros s ->.
    apply clearing_delete_associations; [done|]. intros a _ Ha. left.
    destruct (MenuItemOptionGroups.item_id a); simpl in *; [by subst | done].
Qed.

Lemma clearCategory_clearing categoryId w :
  in_clearing w → categoryId ∈ scope_categories menuId s0 →
  in_clearing (MenuService.clearCategory categoryId w).1.
Proof.
  intros Hw Hc. unfold MenuService.clearCategory.
  apply clearing_query; [done|]. intros v Hv Hdb.
  apply clearing_bind.
  - apply clearing_for_each; [done|]. intros itemId u Hi Hu.
    apply clearItem_clearing; [done|].
    apply list_elem_of_fmap in Hi as (r & -> & Hr).
    apply list_elem_of_filter in Hr as [Hcat Hr].
    apply in_scope_items; [by apply (no_new_items _ _ _ Hw) | by rewrite Hcat].
  - intros _ u Hu. apply clearing_delete; [done|]. intros s ->.
    apply clearing_delete_items; [done|]. by intros i _ ->.
Qed.

Lemma clearMenuData_clearing w :
  in_clearing w → in_clearing (MenuService.clearMenuData menuId w).1.
Proof.
  intros Hw. unfold MenuService.clearMenuData.
  apply clearing_query; [done|]. intros v Hv Hdb.
  apply clearing_bind.
  - apply clearing_for_each; [done|]. intros categoryId u Hc Hu.
    apply clearCategory_clearing; [done|].
    apply list_elem_of_fmap in Hc as (r & -> & Hr).
    apply list_elem_of_filter in Hr as [Hm Hr].
    apply in_scope_categories; [by apply (no_new_categories _ _ _ Hw) | done].
  - intros _ u Hu. apply clearing_delete; [done|]. intros s ->.
    by apply clearing_delete_categories.
Qed.

End clear_scope.

Lemma untouched_outside_refl menuId s : untouched_outside menuId s s.
Proof. split; auto. Qed.

(** C7.  The clear phase of a sync, started in any world and whether it
    completes or fails on the way, leaves [menu_option_groups] and
    [menu_options] exactly as they were, as well as every other table
    outside the menu subtree.  In the four tables of the subtree it
    inserts nothing, and it keeps every category of another menu, every
    item of a category of another menu, every size of such an item and
    every association whose item and size are outside the menu. *)
Theorem clearMenuData_deletes_only_menu_subtree menuId w :
  let w' := (MenuService.clearMenuData menuId w).1 in
  menu_option_groups (db w') = menu_option_groups (db w)
  ∧ menu_options (db w') = menu_options (db w)
  ∧ outside_menu_subtree (db w') = outside_menu_subtree (db w)
  ∧ untouched_outside menuId (db w) (db w').
Proof.
  intros w'.
  pose proof (clearMenuData_frame menuId w) as Hframe.
  fold w' in Hframe. unfold keeps, outside_menu_subtree in Hframe.
  split_and!.
  - congruence.
  - congruence.
  - exact Hframe.
  - apply (clearMenuData_clearing menuId (db w) w), untouched_outside_refl.
Qed.

(** ** Client merge *)

Lemma update_returned {R} get set (P : R → Prop) `{∀ r, Decision (P r)} f now s s' u :
  Sql.update get set P f now s = Returned (s', u) →
  s' = set (table_update P (f now) (get s)) s.
Proof. unfold Sql.update. by intros [= <-]. Qed.





(** ** Sort order *)

(** C6 at a snapshot with two categories, synced into a store that holds
    restaurant 1.  The sync returns; the items of category 10 are stored
    with [sort_order] 0 and 1 and the options of group 9 with 0 and 1,
    but both categories are stored with [sort_order] 0: [syncMenu] calls
    [processCategory] without its [sortOrder] argument, whose default is
    0. *)
Theorem categories_all_get_sort_order_0 :
  let w := Sample.world_with_restaurant true [] in
  let w' :=
    Sample.after (MenuService.syncMenu (HttpOk Sample.menu_two_categories)) w in
  MenuService.stats <$>
    (match Sample.outcome (MenuService.syncMenu (HttpOk Sample.menu_two_categories)) w
     with Returned r => Some r | Thrown _ => None end)
  = Some {| Stats.categories := 2; Stats.items := 3; Stats.sizes := 1;
            Stats.optionGroups := 1; Stats.options := 2 |}
  ∧ (λ c, (MenuCategories.gloriafood_id c, MenuCategories.sort_order c))
      <$> rows (menu_categories (db w')) = [(10, 0); (11, 0)]
  ∧ (λ i, (MenuItems.gloriafood_id i, MenuItems.sort_order i))
      <$> rows (menu_items (db w')) = [(21, 0); (22, 1); (23, 0)]
  ∧ (λ o, (MenuOptions.gloriafood_id o, MenuOptions.sort_order o))
      <$> rows (menu_options (db w')) = [(91, 0); (92, 1)].
Proof. vm_compute. done. Qed.

#[global] Instance categories_sorted_0_stable : Stable categories_sorted_0.
Proof.
  split; unfold categories_sorted_0.
  - auto.
  - intros a b c H1 H2 r Hr. destruct (H2 r Hr) as [?|?]; auto.
  - intros [] b fs _ c. auto.
Qed.

Lemma processCategories_sort_order_0 menuId categories stats :
  respects categories_sorted_0 (MenuService.processCategories menuId categories stats).
Proof.
  respects_all ltac:(idtac).
  all: intros w s' i H; hnf; autounfold with statements deletes in H.
  all: first [ apply insert_returned in H as (_ & -> & _) | injection H as <- _ ].
  all: simpl; auto.
  intros c [Hc | ->%list_elem_of_singleton]%elem_of_app; auto.
Qed.

(** ** Order identity *)

Lemma table_wf_empty {R} `{RowId R} : table_wf (@empty_table R).
Proof. split; [constructor | intros i Hi; inversion Hi]. Qed.

Lemma table_wf_insert {R} `{RowId R} (t : Table R) r :
  table_wf t → row_id r = next_id t →
  table_wf {| rows := rows t ++ [r]; next_id := next_id t + 1 |}.
Proof.
  intros [Hnd Hlt] Hid. unfold table_wf, table_ids in *. simpl.
  rewrite fmap_app. simpl. split.
  - apply NoDup_app. split_and!; [done | | apply NoDup_singleton].
    intros i Hi ->%list_elem_of_singleton. apply Hlt in Hi. lia.
  - intros i [Hi | ->%list_elem_of_singleton]%elem_of_app.
    + apply Hlt in Hi. lia.
    + lia.
Qed.

Lemma table_wf_delete {R} `{RowId R} (P : R → Prop) `{∀ r, Decision (P r)} (t : Table R) :
  table_wf t → table_wf (table_delete P t).
Proof.
  intros [Hnd Hlt]. unfold table_wf, table_ids, table_delete in *. simpl.
  assert (Hsub : sublist (row_id <$> filter (λ r, ¬ P r) (rows t)) (row_id <$> rows t))
    by apply fmap_sublist, sublist_filter.
  split.
  - eapply sublist_NoDup; done.
  - intros i Hi. apply Hlt. eapply sublist_subseteq; done.
Qed.

Lemma table_wf_update {R} `{RowId R} (P : R → Prop) `{∀ r, Decision (P r)} f (t : Table R) :
  (∀ r, row_id (f r) = row_id r) → table_wf t → table_wf (table_update P f t).
Proof.
  intros Hf Hwf. unfold table_wf, table_ids, table_update in *. simpl.
  rewrite <- list_fmap_compose.
  erewrite (list_fmap_ext _ row_id); [exact Hwf|].
  intros ? r _. simpl. destruct (decide (P r)); auto.
Qed.


#[global] Instance grows_stable {R} (f : Store → Table R) : Stable (grows f).
Proof.
  split; unfold grows.
  - done.
  - intros a b c H1 H2. by etrans.
  - intros [] b fs _. done.
Qed.

#[global] Instance wf_kept_stable {R} `{RowId R} (f : Store → Table R) :
  Stable (wf_kept f).
Proof.
  split; unfold wf_kept.
  - done.
  - intros a b c H1 H2. auto.
  - intros [] b fs _. done.
Qed.









Lemma table_first_None {R} (P : R → Prop) `{∀ r, Decision (P r)} (t : Table R) r :
  table_first P t = None → r ∈ rows t → ¬ P r.
Proof.
  unfold table_first, table_select. intros Hh Hr HP.
  assert (Hin : r ∈ filter P (rows t)) by (apply list_elem_of_filter; done).
  destruct (filter P (rows t)); [by apply elem_of_nil in Hin | discriminate].
Qed.




(** ** A failed ingestion is not rolled back *)


#[global] Instance nothing_removed_stable : Stable nothing_removed.
Proof.
  split.
  - intros w. split; reflexivity.
  - intros a b c [] []. split; etrans; eassumption.
  - intros [] b fs _. split; reflexivity.
Qed.






(** ** Two invocations racing on one deduplication key *)






(** ** A sync that fails during the rebuild *)


#[global] Instance fresh_categories_stable : Stable fresh_categories.
Proof.
  split; unfold fresh_categories.
  - intros w. split; [lia | auto].
  - intros a b c [L1 H1] [L2 H2]. split; [lia|].
    intros r Hr. destruct (H2 r Hr) as [Hb | Hb]; [|right; lia].
    destruct (H1 r Hb); auto.
  - intros [] b fs _. simpl. split; [lia | auto].
Qed.












(** ** Option groups shared by items and sizes *)















(** *** The group tables along a walk *)


Lemma NoDup_fmap_snoc {A B} (f : A → B) (l : list A) x :
  NoDup (f <$> l) → f x ∉ f <$> l → NoDup (f <$> l ++ [x]).
Proof.
  intros Hnd Hx. rewrite fmap_app. apply NoDup_app.
  split_and!; [done | | apply NoDup_singleton].
  by intros y Hy ->%list_elem_of_singleton.
Qed.









(** The counter of the groups never goes back. *)
Lemma visit_counter now σ g : next_id σ.1 ≤ next_id (visit now σ g).1.
Proof.
  unfold visit. destruct (group_with _ _); simpl; lia.
Qed.





Lemma walk_counter now gs σ : next_id σ.1 ≤ next_id (foldl (visit now) σ gs).1.
Proof.
  revert σ. induction gs as [|g gs IH]; intros σ; simpl; [lia|].
  pose proof (visit_counter now σ g). specialize (IH (visit now σ g)). lia.
Qed.











(** *** The whole sync *)










(** ** The invariant of the store is kept *)

#[global] Instance ok_kept_stable : Stable ok_kept.
Proof.
  split; unfold ok_kept.
  - done.
  - intros a b c H1 H2. auto.
  - intros [] b fs _. done.
Qed.

Lemma store_ok_empty fk : store_ok (empty_store fk).
Proof.
  split; simpl; [apply table_wf_empty | apply table_wf_empty | | apply table_wf_empty
    | done | done].
  split; [apply table_wf_empty | constructor].
Qed.

Lemma groups_ok_update g (P : MenuOptionGroups.row → Prop) `{∀ r, Decision (P r)} G :
  groups_ok G → groups_ok (table_update P (MenuService.updateGroupRow g) G).
Proof.
  intros [Hwf Hnd]. split.
  - by apply table_wf_update.
  - unfold table_update. simpl. rewrite <- list_fmap_compose.
    erewrite (list_fmap_ext _ MenuOptionGroups.gloriafood_id); [exact Hnd|].
    intros ? r _. simpl. by destruct (decide _).
Qed.

Lemma groups_ok_insert g now G :
  groups_ok G → group_with (MenuOptionGroup.id g) G = None →
  groups_ok {| rows := rows G ++ [MenuService.newGroupRow g now (next_id G)];
               next_id := next_id G + 1 |}.
Proof.
  intros [Hwf Hnd] Hnone. split.
  - by apply table_wf_insert.
  - apply NoDup_fmap_snoc; [done|].
    intros (r & Hr & Hin)%list_elem_of_fmap. simpl in Hr.
    by apply (table_first_None _ _ r Hnone Hin).
Qed.

(** The invariant across a statement that writes none of the tables it
    speaks of, or inserts into, deletes from or rewrites one of them. *)
Ltac ok_statement :=
  let H := fresh in
  first
    [ solve [intros ?; hnf; auto]
    | intros ? ? ? H; hnf; autounfold with statements deletes in H;
      first [ apply insert_returned in H as (? & -> & _) | injection H as <- _ ];
      subst;
      let K := fresh in
      intros K; destruct K; repeat (simpl; case_match); split; simpl;
      first
        [ assumption
        | lia
        | apply table_wf_insert; [assumption | reflexivity]
        | repeat apply table_wf_delete; assumption
        | apply table_wf_update; [reflexivity | assumption] ] ].

Lemma processOrder_ok order : respects ok_kept (OrdersService.processOrder order).
Proof. respects_all ok_statement. Qed.

Lemma getOrCreateMenu_ok menuData :
  respects ok_kept (MenuService.getOrCreateMenu menuData).
Proof. respects_all ok_statement. Qed.

Lemma clearMenuData_ok menuId : respects ok_kept (MenuService.clearMenuData menuId).
Proof. respects_all ok_statement. Qed.

Lemma logEvent_ok eventType payload status errorMessage :
  respects ok_kept (MenuService.logEvent eventType payload status errorMessage).
Proof. respects_all ok_statement. Qed.

Lemma logWebhook_ok payload status errorMessage :
  respects ok_kept (Routes.logWebhook payload status errorMessage).
Proof. respects_all ok_statement. Qed.

(** [processOptionGroup] inserts a group only after its lookup found none
    in the same store: no second row gets the external id. *)
Lemma processOptionGroup_ok group stats itemId sizeId :
  respects ok_kept (MenuService.processOptionGroup group stats itemId sizeId).
Proof.
  assert (Hassoc : ∀ groupId,
    respects ok_kept
      (if Js.num_falsy (Js.num_or_else itemId sizeId) then ret tt
       else
         let* _ :=
           d1_run (Sql.insert_or_ignore_menu_item_option_group (λ _ id,
             {| MenuItemOptionGroups.id := id;
                MenuItemOptionGroups.item_id := itemId;
                MenuItemOptionGroups.size_id := sizeId;
                MenuItemOptionGroups.option_group_id := groupId |})) in
         ret tt)).
  { intros groupId. repeat respects_step ok_statement. }
  assert (Hloop : ∀ groupId (stats : Stats.t),
    respects ok_kept
      (let* (stats, _) :=
         for_each (MenuOptionGroup.options group)
           (λ '(stats, optionSortOrder) option,
              let* _ :=
                d1_run (Sql.insert_menu_option (λ _ id,
                  MenuService.newOptionRow groupId option optionSortOrder id)) in
              ret (Stats.incr_options stats, optionSortOrder + 1))
           (stats, 0) in
       ret stats)).
  { intros groupId stats0. repeat respects_step ok_statement. }
  intros w Hok. unfold MenuService.processOptionGroup.
  unfold bind at 1.
  destruct (d1_query _ w) as [w0 [existing|e0]] eqn:E0; simpl.
  2: { apply d1_query_thrown in E0 as (_ & -> & _). exact Hok. }
  apply d1_query_returned in E0 as (Hex & Hdb0 & _).
  fold (group_with (MenuOptionGroup.id group) (menu_option_groups (db w))) in Hex.
  unfold bind at 1.
  destruct existing as [ex|].
  - unfold bind at 1.
    destruct (d1_run _ w0) as [w1 [u|e1]] eqn:E1; simpl.
    2: { apply d1_run_thrown in E1 as (-> & _). by rewrite Hdb0. }
    apply d1_run_returned in E1 as (E1 & _). apply update_returned in E1.
    assert (Hok1 : store_ok (db w1)).
    { rewrite E1, Hdb0. destruct Hok. split; simpl; try done.
      by apply groups_ok_update. }
    apply (respects_bind ok_kept _ _ (Hassoc _)); [|exact Hok1].
    intros _. apply respects_ret. apply _.
  - unfold bind at 1.
    destruct (d1_run _ w0) as [w1 [gid|e1]] eqn:E1; simpl.
    2: { apply d1_run_thrown in E1 as (-> & _). by rewrite Hdb0. }
    apply d1_run_returned in E1 as (E1 & _).
    unfold Sql.insert_menu_option_group in E1.
    apply insert_returned in E1 as (-> & E1 & _).
    assert (Hok1 : store_ok (db w1)).
    { rewrite E1, Hdb0. destruct Hok. split; simpl; try done.
      apply groups_ok_insert; [done | by symmetry]. }
    apply (respects_bind ok_kept _ _ (Hassoc _)); [|exact Hok1].
    intros _. apply Hloop.
Qed.

Lemma processCategories_ok menuId categories stats :
  respects ok_kept (MenuService.processCategories menuId categories stats).
Proof.
  unfold MenuService.processCategories, MenuService.processCategory,
    MenuService.processItem, MenuService.processSize, MenuService.processGroups.
  repeat first [ apply processOptionGroup_ok | respects_step ok_statement ].
Qed.

(** Every call keeps the invariant of the store, whatever its outcome. *)
Lemma syncMenu_ok remote : respects ok_kept (MenuService.syncMenu remote).
Proof.
  unfold MenuService.syncMenu, MenuService.syncMenu_store, GloriaFoodClient.fetchMenu.
  repeat first
    [ apply getOrCreateMenu_ok | apply clearMenuData_ok | apply processCategories_ok
    | apply logEvent_ok | respects_step ok_statement ].
Qed.

Lemma webhookOrders_ok masterKey authHeader body :
  respects ok_kept (Routes.webhookOrders masterKey authHeader body).
Proof.
  unfold Routes.webhookOrders, Routes.processOrders.
  repeat first
    [ apply processOrder_ok | apply logWebhook_ok | respects_step ok_statement ].
Qed.

Lemma getFullMenu_ok : respects ok_kept MenuService.getFullMenu.
Proof. respects_all ok_statement. Qed.
